(** * github-summariser: the fetcher and the summary generator of [main.py]

    A shallow embedding of [should_include_file], [get_repo_data],
    [analyze_repo], [summarize_repo] and the two exception handlers, and the
    properties of the specification and of the code proved on it.

    Python values are modelled as follows.
    - A [str] is the list of its Unicode code points, so [len], slicing and
      indexing count characters exactly as Python does.
    - An [int] is a [Z]; [None] is the [None] of an [option].
    - A raised exception is the [Raise] case of [outcome].
    - The functions of the Python runtime and of third-party libraries that
      the program calls ([str.lower], [base64.b64decode], [bytes.decode],
      [json.loads]) and the two remote services (the source-control API behind
      [httpx], the completion API behind [openai]) are variables of the
      section [Program]: every theorem holds for all their behaviours.
      Reference instances of the library functions are given in the module
      [Ref], for running the program on concrete inputs. *)

From Stdlib Require Import String Ascii List NArith ZArith Bool Lia.
Import ListNotations.

Local Open Scope Z_scope.

(** ** Strings *)

(** A code point. *)
Definition char := N.

(** A Python [str]. *)
Definition str := list char.

(** The [str] of an ASCII literal of the source. *)
Definition lit (s : string) : str := map N_of_ascii (list_ascii_of_string s).
Arguments lit s%_string.

(** The double-quote character, code point 34. *)
Definition dquote : char := 34%N.

Definition char_eqb (a b : char) : bool := N.eqb a b.

(** [a == b] on [str]. *)
Fixpoint str_eqb (a b : str) : bool :=
  match a, b with
  | [], [] => true
  | x :: a', y :: b' => char_eqb x y && str_eqb a' b'
  | _, _ => false
  end.

(** [x in s] for a collection [s] of strings. *)
Definition str_in (x : str) (s : list str) : bool := existsb (str_eqb x) s.

(** [s.startswith(prefix)]. *)
Fixpoint startswith (s prefix : str) {struct prefix} : bool :=
  match prefix, s with
  | [], _ => true
  | c :: prefix', x :: s' => char_eqb x c && startswith s' prefix'
  | _ :: _, [] => false
  end.

(** [s[i:j]] for indices [0 <= i] (a negative [i] does not occur in the
    program). *)
Definition slice (s : str) (i j : Z) : str :=
  firstn (Z.to_nat (j - i)) (skipn (Z.to_nat i) s).

(** [s[:j]] and [s[i:]] for non-negative indices. *)
Definition slice_to (s : str) (j : Z) : str := firstn (Z.to_nat j) s.
Definition slice_from (s : str) (i : Z) : str := skipn (Z.to_nat i) s.

(** [s.rfind(c)] for a one-character [c]: the highest index of [c] in [s],
    or [-1].  [rfind_from] scans [s], whose first character has index [i],
    and [found] is the highest index seen so far. *)
Fixpoint rfind_from (c : char) (s : str) (i found : Z) : Z :=
  match s with
  | [] => found
  | x :: s' => rfind_from c s' (i + 1) (if char_eqb x c then i else found)
  end.

Definition rfind (s : str) (c : char) : Z := rfind_from c s 0 (-1).

(** [s.rstrip(c)] for a one-character [c]. *)
Fixpoint rstrip (s : str) (c : char) : str :=
  match s with
  | [] => []
  | x :: s' =>
      match rstrip s' c with
      | [] => if char_eqb x c then [] else [x]
      | r => x :: r
      end
  end.

(** [s.split(c)] for a one-character separator [c]: never empty, and
    [''.split(c) == ['']]. *)
Fixpoint split (s : str) (c : char) : list str :=
  match s with
  | [] => [[]]
  | x :: s' =>
      if char_eqb x c then [] :: split s' c
      else match split s' c with
           | [] => [[x]]
           | seg :: segs => (x :: seg) :: segs
           end
  end.

(** [sep.join(l)]. *)
Fixpoint join (sep : str) (l : list str) : str :=
  match l with
  | [] => []
  | [x] => x
  | x :: l' => x ++ sep ++ join sep l'
  end.

(** [s.replace(old, new)] for a non-empty [old]: the occurrences of [old]
    are found from left to right and do not overlap.  [skip] counts the
    characters of an occurrence still to be dropped. *)
Fixpoint replace_from (old new : str) (skip : nat) (s : str) : str :=
  match s with
  | [] => []
  | x :: s' =>
      match skip with
      | S k => replace_from old new k s'
      | O =>
          if startswith s old
          then new ++ replace_from old new (Nat.pred (length old)) s'
          else x :: replace_from old new O s'
      end
  end.

Definition replace (s old new : str) : str := replace_from old new O s.

(** [c.isspace()]: the characters of bidirectional type WS, B or S and of
    category Zs. *)
Definition isspace (c : char) : bool :=
  ((9 <=? c) && (c <=? 13) || (28 <=? c) && (c <=? 32)
   || (c =? 133) || (c =? 160) || (c =? 5760)
   || (8192 <=? c) && (c <=? 8202)
   || (c =? 8232) || (c =? 8233) || (c =? 8239) || (c =? 8287)
   || (c =? 12288))%N.

(** [s.lstrip()], [s.rstrip()] and [s.strip()] without argument. *)
Fixpoint lstrip_space (s : str) : str :=
  match s with
  | [] => []
  | x :: s' => if isspace x then lstrip_space s' else s
  end.

Fixpoint rstrip_space (s : str) : str :=
  match s with
  | [] => []
  | x :: s' =>
      match rstrip_space s' with
      | [] => if isspace x then [] else [x]
      | r => x :: r
      end
  end.

Definition strip (s : str) : str := rstrip_space (lstrip_space s).

(** [l[i]] with Python's negative indices; [None] stands for [IndexError]. *)
Definition index {A : Type} (l : list A) (i : Z) : option A :=
  let n := Z.of_nat (length l) in
  if i <? 0
  then if n + i <? 0 then None else nth_error l (Z.to_nat (n + i))
  else nth_error l (Z.to_nat i).

(** ** [os.path.splitext] (posixpath) *)

Definition sep : char := 47%N.     (* '/' *)
Definition extsep : char := 46%N.  (* '.' *)

(** The loop of [genericpath._splitext] that skips the leading dots of the
    last path component: [trips] is the number of iterations left of
    [while filenameIndex < dotIndex], and [None] is the loop running out. *)
Fixpoint skip_leading_dots (p : str) (dotIndex : Z) (trips : nat)
    (filenameIndex : Z) : option (str * str) :=
  match trips with
  | O => None
  | S k =>
      if negb (str_eqb (slice p filenameIndex (filenameIndex + 1)) [extsep])
      then Some (slice_to p dotIndex, slice_from p dotIndex)
      else skip_leading_dots p dotIndex k (filenameIndex + 1)
  end.

(** [os.path.splitext(p)]. *)
Definition splitext (p : str) : str * str :=
  let sepIndex := rfind p sep in
  let dotIndex := rfind p extsep in
  if sepIndex <? dotIndex
  then
    let filenameIndex := sepIndex + 1 in
    match skip_leading_dots p dotIndex (Z.to_nat (dotIndex - filenameIndex))
            filenameIndex with
    | Some r => r
    | None => (p, [])
    end
  else (p, []).

(** ** Exceptions and results *)

(** The exceptions of the program.  [HTTPException] is FastAPI's, raised by
    the program itself; the four built-in errors are raised by the
    operations of the program on values of the wrong shape; a
    [LibraryError] is any other exception deriving from [Exception] raised
    inside a library call ([httpx.TransportError], [json.JSONDecodeError],
    [binascii.Error], [UnicodeDecodeError], [openai.APIError], ...); a
    [BaseOnly] is one deriving from [BaseException] only (task
    cancellation, interpreter exit). *)
Inductive exn : Type :=
| HTTPException (status_code : Z) (detail : str)
| TypeError
| KeyError
| IndexError
| AttributeError
| LibraryError (name : str)
| BaseOnly (name : str).

(** [isinstance(e, Exception)]. *)
Definition is_Exception (e : exn) : bool :=
  match e with
  | BaseOnly _ => false
  | _ => true
  end.

(** The result of evaluating an expression: a value or a raised
    exception. *)
Inductive outcome (A : Type) : Type :=
| Return (a : A)
| Raise (e : exn).
Arguments Return {A} a.
Arguments Raise {A} e.

Definition bind {A B : Type} (c : outcome A) (k : A -> outcome B) : outcome B :=
  match c with
  | Return a => k a
  | Raise e => Raise e
  end.

Notation "x <- c ;; k" := (bind c (fun x => k))
  (at level 61, c at next level, right associativity).

(** ** JSON values, as [json.loads] and [Response.json] build them *)

#[warnings="-register-all"]
Inductive json : Type :=
| JNull
| JBool (b : bool)
| JInt (z : Z)
| JFloat (literal : str)
| JStr (s : str)
| JArr (items : list json)
| JObj (fields : list (str * json)).

(** The value bound to [k] in a dict. *)
Fixpoint dict_get (fields : list (str * json)) (k : str) : option json :=
  match fields with
  | [] => None
  | (k', v) :: fields' => if str_eqb k' k then Some v else dict_get fields' k
  end.

(** [v[k]] for a string key [k]. *)
Definition subscript (v : json) (k : str) : outcome json :=
  match v with
  | JObj fields =>
      match dict_get fields k with
      | Some x => Return x
      | None => Raise KeyError
      end
  | _ => Raise TypeError
  end.

(** The elements that [for f in v] goes through: the items of a list, the
    keys of a dict, the characters of a string. *)
Definition iterate (v : json) : outcome (list json) :=
  match v with
  | JArr items => Return items
  | JObj fields => Return (map (fun kv => JStr (fst kv)) fields)
  | JStr s => Return (map (fun c => JStr [c]) s)
  | _ => Raise TypeError
  end.

(** ** The two remote services *)

(** What [http_client.get(url, headers=headers)] is called with; a header
    dict binds a name to a string or to [None]. *)
Record request : Type := {
  url : str;
  headers : list (str * option str)
}.

(** What it returns: the status code and the result of [.json()]. *)
Record response : Type := {
  status_code : Z;
  json_body : outcome json
}.

Record message : Type := {
  role : str;
  content : str
}.

(** What [client.chat.completions.create] is called with. *)
Record chat_request : Type := {
  model : str;
  messages : list message;
  temperature : Z * Z;  (* the decimal literal: mantissa and exponent of ten *)
  max_tokens : Z
}.

(** What it returns: [message_content] is [choices[i].message.content], a
    string or [None]. *)
Record choice : Type := { message_content : option str }.
Record completion : Type := { choices : list choice }.

(** A computation that calls the source-control API: it threads the log of
    the requests made so far, and ends in a value or an exception. *)
Definition io (A : Type) : Type := list request -> outcome A * list request.

Definition io_ret {A : Type} (a : A) : io A := fun log => (Return a, log).

Definition io_raise {A : Type} (e : exn) : io A := fun log => (Raise e, log).

Definition io_lift {A : Type} (c : outcome A) : io A := fun log => (c, log).

Definition io_bind {A B : Type} (c : io A) (k : A -> io B) : io B :=
  fun log =>
    match c log with
    | (Return a, log') => k a log'
    | (Raise e, log') => (Raise e, log')
    end.

Notation "'let*' x ':=' c 'in' k" := (io_bind c (fun x => k))
  (at level 10, x pattern, c at level 100, k at level 200).

(** Runs a computation from the empty log. *)
Definition run {A : Type} (c : io A) : outcome A * list request := c [].

(** ** The program *)

Definition nl : str := [10%N].

Definition fence : str := [96%N; 96%N; 96%N].

Section Program.

(** [str.lower]. *)
Variable str_lower : str -> str.

(** [base64.b64decode] on a [str], and [bytes.decode] with codec utf-8. *)
Variable b64decode : str -> outcome (list N).
Variable utf8_decode : list N -> outcome str.

(** [json.loads]. *)
Variable json_loads : str -> outcome json.

(** [os.getenv] of the access token: a string, or [None]. *)
Variable GITHUB_TOKEN : option str.

(** The source-control API: what [await http_client.get] evaluates to. *)
Variable http_get : request -> outcome response.

(** The completion API: what [await client.chat.completions.create]
    evaluates to. *)
Variable chat_create : chat_request -> outcome completion.

Definition ignored_extensions : list str :=
  [lit ".png"; lit ".jpg"; lit ".gif"; lit ".zip"; lit ".exe"; lit ".pyc";
   lit ".lock"].

(** [should_include_file(filename)] for a [str]. *)
Definition should_include_file (filename : str) : bool :=
  if startswith filename (lit ".") then false
  else
    let ext := str_lower (snd (splitext filename)) in
    negb (str_in ext ignored_extensions).

(** [[f["name"] for f in all_files if should_include_file(f["name"])]],
    over the elements of [all_files] in order.  A name that is not a
    string has no [startswith]. *)
Fixpoint file_list_of (elements : list json) : outcome (list str) :=
  match elements with
  | [] => Return []
  | f :: rest =>
      name <- subscript f (lit "name") ;;
      match name with
      | JStr filename =>
          if should_include_file filename
          then (kept <- file_list_of rest ;; Return (filename :: kept))
          else file_list_of rest
      | _ => Raise AttributeError
      end
  end.

(** Lines 59 to 64: the owner and the name of the repository. *)
Definition parse_repo_url (repo_url : str) : outcome (str * str) :=
  let parts := split (rstrip repo_url sep) sep in
  if Z.of_nat (length parts) <? 2
  then Raise (HTTPException 400 (lit "Invalid GitHub URL"))
  else
    match index parts (-2), index parts (-1) with
    | Some owner, Some repo_name => Return (owner, repo_name)
    | _, _ => Raise IndexError
    end.

(** Lines 66 to 69. *)
Definition request_headers : list (str * option str) :=
  [ (lit "Accept", Some (lit "application/vnd.github.v3+json"));
    (lit "Authorization",
     match GITHUB_TOKEN with
     | Some (c :: token) => Some (lit "Bearer " ++ c :: token)
     | _ => None
     end) ].

Definition tree_url (owner repo_name : str) : str :=
  lit "https://api.github.com/repos/" ++ owner ++ lit "/" ++ repo_name
    ++ lit "/contents/".

Definition readme_url (owner repo_name : str) : str :=
  lit "https://api.github.com/repos/" ++ owner ++ lit "/" ++ repo_name
    ++ lit "/readme".

(** [await http_client.get(url, headers=headers)]: the call is logged. *)
Definition get (u : str) (h : list (str * option str)) : io response :=
  fun log =>
    let req := {| url := u; headers := h |} in
    (http_get req, log ++ [req]).

(** Lines 77 to 81: the file list of a listing response. *)
Definition file_list_of_response (tree_resp : response) : outcome (list str) :=
  if status_code tree_resp =? 200
  then
    all_files <- json_body tree_resp ;;
    elements <- iterate all_files ;;
    file_list_of elements
  else Return [].

(** [base64.b64decode(v)] for a JSON value: only a string is accepted. *)
Definition b64decode_value (v : json) : outcome (list N) :=
  match v with
  | JStr s => b64decode s
  | _ => Raise TypeError
  end.

(** Lines 87 to 94: the text of a readme response. *)
Definition readme_content_of_response (readme_resp : response) : outcome str :=
  if status_code readme_resp =? 200
  then
    data <- json_body readme_resp ;;
    encoded <- subscript data (lit "content") ;;
    raw <- b64decode_value encoded ;;
    utf8_decode raw
  else if status_code readme_resp =? 404
  then Return (lit "No README found.")
  else Raise (HTTPException (status_code readme_resp) (lit "GitHub API Error")).

(** [get_repo_data(repo_url)]. *)
Definition get_repo_data (repo_url : str) : io (str * list str) :=
  let* (owner, repo_name) := io_lift (parse_repo_url repo_url) in
  let headers := request_headers in
  let* tree_resp := get (tree_url owner repo_name) headers in
  let* file_list := io_lift (file_list_of_response tree_resp) in
  let* readme_resp := get (readme_url owner repo_name) headers in
  let* readme_content := io_lift (readme_content_of_response readme_resp) in
  io_ret (readme_content, file_list).

(** Line 102. *)
Definition truncated_readme (readme_text : str) : str :=
  slice_to readme_text 5000.

(** Line 105. *)
Definition files_str (file_list : list str) : str := join (lit ", ") file_list.

(** Lines 108 to 117. *)
Definition system_prompt : str :=
  nl
  ++ lit "    You are a technical assistant. Analyze the provided GitHub repository data." ++ nl
  ++ lit "    " ++ nl
  ++ lit "    Output strictly valid JSON with these 3 keys:" ++ nl
  ++ lit "    1. " ++ [dquote] ++ lit "summary" ++ [dquote]
  ++ lit ": A clear, human-readable paragraph describing what the project does." ++ nl
  ++ lit "    2. " ++ [dquote] ++ lit "technologies" ++ [dquote]
  ++ lit ": A list of specific languages, frameworks, or libraries detected." ++ nl
  ++ lit "    3. " ++ [dquote] ++ lit "structure" ++ [dquote]
  ++ lit ": A brief explanation of the project structure based on the file list." ++ nl
  ++ lit "    " ++ nl
  ++ lit "    Do NOT output markdown code blocks (no ```json). Return ONLY the raw JSON string." ++ nl
  ++ lit "    ".

(** Lines 120 to 122. *)
Definition user_prompt (readme_text : str) (file_list : list str) : str :=
  lit " " ++ nl
  ++ lit "    Root Files (Filtered): " ++ files_str file_list ++ nl
  ++ lit "    README Content (Truncated): " ++ truncated_readme readme_text.

(** Lines 125 to 133: the arguments of the completion call. *)
Definition completion_request (readme_text : str) (file_list : list str)
    : chat_request :=
  {| model := lit "meta-llama/Llama-3.3-70B-Instruct-fast";
     messages :=
       [ {| role := lit "system"; content := system_prompt |};
         {| role := lit "user"; content := user_prompt readme_text file_list |} ];
     temperature := (2, -1);
     max_tokens := 500 |}.

(** [response.choices[0].message.content], used as a string on line 137. *)
Definition first_content (r : completion) : outcome str :=
  match choices r with
  | [] => Raise IndexError
  | c :: _ =>
      match message_content c with
      | Some s => Return s
      | None => Raise AttributeError
      end
  end.

(** Line 137. *)
Definition clean (s : str) : str :=
  strip (replace (replace s (fence ++ lit "json") []) fence []).

(** The body of the [try], lines 125 to 140. *)
Definition try_body (readme_text : str) (file_list : list str) : outcome json :=
  r <- chat_create (completion_request readme_text file_list) ;;
  c <- first_content r ;;
  json_loads (clean c).

(** Lines 144 to 148. *)
Definition fallback : json :=
  JObj [ (lit "summary", JStr (lit "Analysis failed to produce valid JSON."));
         (lit "technologies", JArr []);
         (lit "structure", JStr (lit "Unknown")) ].

(** [analyze_repo(readme_text, file_list)]: [except Exception] catches what
    derives from [Exception]. *)
Definition analyze_repo (readme_text : str) (file_list : list str) : outcome json :=
  match try_body readme_text file_list with
  | Return v => Return v
  | Raise e => if is_Exception e then Return fallback else Raise e
  end.

(** [summarize_repo(request)], on the URL of the request. *)
Definition summarize_repo (github_url : str) : io json :=
  let* (readme_content, file_list) := get_repo_data github_url in
  io_lift (analyze_repo readme_content file_list).

End Program.

(** ** Reference instances of the library functions

    Executable stand-ins for the library functions that [Program] takes as
    variables, used to run the program on concrete inputs.  Each follows
    the library on the inputs described in its comment. *)

Module Ref.

(** [str.lower] on ASCII text: [A] to [Z] become [a] to [z].  (On other
    text Python consults the Unicode database.) *)
Definition lower_char (c : char) : char :=
  if ((65 <=? c) && (c <=? 90))%N then (c + 32)%N else c.

Definition str_lower (s : str) : str := map lower_char s.

(** The value of a character of the base64 alphabet. *)
Definition b64_value (c : char) : option N :=
  if ((65 <=? c) && (c <=? 90))%N then Some (c - 65)%N
  else if ((97 <=? c) && (c <=? 122))%N then Some (c - 71)%N
  else if ((48 <=? c) && (c <=? 57))%N then Some (c + 4)%N
  else if (c =? 43)%N then Some 62%N
  else if (c =? 47)%N then Some 63%N
  else None.

(** [binascii.a2b_base64] without [strict_mode]: characters outside the
    alphabet are skipped, [quad_pos] is the position in the current group
    of four, [leftchar] holds the bits not yet written, [pads] counts the
    padding characters seen since the last data character. *)
Fixpoint a2b_base64 (s : str) (quad_pos : N) (leftchar : N) (pads : N)
    : outcome (list N) :=
  match s with
  | [] =>
      if (quad_pos =? 0)%N then Return []
      else Raise (LibraryError (lit "binascii.Error"))
  | this_ch :: s' =>
      if (this_ch =? 61)%N
      then
        if ((2 <=? quad_pos) && (4 <=? quad_pos + (pads + 1)))%N
        then Return []
        else a2b_base64 s' quad_pos leftchar
               (if (2 <=? quad_pos)%N then (pads + 1)%N else pads)
      else
        match b64_value this_ch with
        | None => a2b_base64 s' quad_pos leftchar pads
        | Some v =>
            if (quad_pos =? 0)%N then a2b_base64 s' 1%N v 0%N
            else if (quad_pos =? 1)%N then
              bin <- a2b_base64 s' 2%N (N.land v 15) 0%N ;;
              Return (N.lor (N.shiftl leftchar 2) (N.shiftr v 4) :: bin)
            else if (quad_pos =? 2)%N then
              bin <- a2b_base64 s' 3%N (N.land v 3) 0%N ;;
              Return (N.lor (N.shiftl leftchar 4) (N.shiftr v 2) :: bin)
            else
              bin <- a2b_base64 s' 0%N 0%N 0%N ;;
              Return (N.lor (N.shiftl leftchar 6) v :: bin)
        end
  end.

(** [base64.b64decode(s)] for a [str]: the text must be ASCII. *)
Definition b64decode (s : str) : outcome (list N) :=
  if forallb (fun c => (c <? 128)%N) s
  then a2b_base64 s 0%N 0%N 0%N
  else Raise (LibraryError (lit "ValueError")).

Definition continuation (b : N) : bool := ((128 <=? b) && (b <=? 191))%N.

Definition low6 (b : N) : N := N.land b 63.

(** [bytes.decode] with codec utf-8 and strict error handling: shortest
    encodings only, no surrogates, nothing above U+10FFFF.  [n] bounds the
    number of characters. *)
Fixpoint utf8_chars (n : nat) (bs : list N) : outcome str :=
  match n with
  | O => match bs with
         | [] => Return []
         | _ => Raise (LibraryError (lit "UnicodeDecodeError"))
         end
  | S k =>
      match bs with
      | [] => Return []
      | b0 :: r0 =>
          if (b0 <? 128)%N then (cs <- utf8_chars k r0 ;; Return (b0 :: cs))
          else
            match r0 with
            | b1 :: r1 =>
                if ((194 <=? b0) && (b0 <=? 223) && continuation b1)%N
                then cs <- utf8_chars k r1 ;;
                     Return ((N.land b0 31 * 64 + low6 b1)%N :: cs)
                else
                  match r1 with
                  | b2 :: r2 =>
                      if ((224 <=? b0) && (b0 <=? 239) && continuation b1
                          && continuation b2
                          && negb ((b0 =? 224) && (b1 <? 160))
                          && negb ((b0 =? 237) && (160 <=? b1)))%N
                      then cs <- utf8_chars k r2 ;;
                           Return ((N.land b0 15 * 4096 + low6 b1 * 64
                                    + low6 b2)%N :: cs)
                      else
                        match r2 with
                        | b3 :: r3 =>
                            if ((240 <=? b0) && (b0 <=? 244)
                                && continuation b1 && continuation b2
                                && continuation b3
                                && negb ((b0 =? 240) && (b1 <? 144))
                                && negb ((b0 =? 244) && (144 <=? b1)))%N
                            then cs <- utf8_chars k r3 ;;
                                 Return ((N.land b0 7 * 262144
                                          + low6 b1 * 4096 + low6 b2 * 64
                                          + low6 b3)%N :: cs)
                            else Raise (LibraryError (lit "UnicodeDecodeError"))
                        | [] => Raise (LibraryError (lit "UnicodeDecodeError"))
                        end
                  | [] => Raise (LibraryError (lit "UnicodeDecodeError"))
                  end
            | [] => Raise (LibraryError (lit "UnicodeDecodeError"))
            end
      end
  end.

Definition utf8_decode (bs : list N) : outcome str := utf8_chars (length bs) bs.

(** The whitespace of a JSON document. *)
Definition json_space (c : char) : bool :=
  ((c =? 32) || (c =? 9) || (c =? 10) || (c =? 13))%N.

Fixpoint skip_space (s : str) : str :=
  match s with
  | c :: s' => if json_space c then skip_space s' else s
  | [] => []
  end.

(** The characters of a string up to its closing quote; a backslash or a
    control character ends the fragment. *)
Fixpoint scan_string (s : str) : option (str * str) :=
  match s with
  | [] => None
  | c :: s' =>
      if (c =? 34)%N then Some ([], s')
      else if ((c =? 92) || (c <? 32))%N then None
      else match scan_string s' with
           | Some (chars, rest) => Some (c :: chars, rest)
           | None => None
           end
  end.

Definition is_digit (c : char) : bool := ((48 <=? c) && (c <=? 57))%N.

(** The decimal digits at the head of [s], read after the value [acc]. *)
Fixpoint scan_digits (s : str) (acc : Z) : Z * str :=
  match s with
  | c :: s' =>
      if is_digit c then scan_digits s' (10 * acc + Z.of_N (c - 48))
      else (acc, s)
  | [] => (acc, [])
  end.

(** Whether a fraction or an exponent follows, which makes a float. *)
Definition float_follows (s : str) : bool :=
  match s with
  | c :: d :: s' =>
      ((c =? 46) && is_digit d
       || ((c =? 101) || (c =? 69))
          && (is_digit d
              || ((d =? 43) || (d =? 45))
                 && match s' with e :: _ => is_digit e | [] => false end))%N
  | _ => false
  end.

(** An integer literal: [0], or a non-zero digit and more digits. *)
Definition scan_natural (s : str) : option (Z * str) :=
  match s with
  | c :: s' =>
      if (c =? 48)%N then Some (0, s')
      else if is_digit c then Some (scan_digits s 0)
      else None
  | [] => None
  end.

Definition scan_integer (s : str) : option (json * str) :=
  let signed :=
    match s with
    | c :: s' =>
        if (c =? 45)%N
        then match scan_natural s' with
             | Some (n, rest) => Some (- n, rest)
             | None => None
             end
        else scan_natural s
    | [] => None
    end in
  match signed with
  | Some (n, rest) => if float_follows rest then None else Some (JInt n, rest)
  | None => None
  end.

(** Binds [k] to [v] in a dict: a key met again keeps its place and takes
    the new value. *)
Fixpoint dict_set (fields : list (str * json)) (k : str) (v : json)
    : list (str * json) :=
  match fields with
  | [] => [(k, v)]
  | (k', v') :: fields' =>
      if str_eqb k' k then (k, v) :: fields'
      else (k', v') :: dict_set fields' k v
  end.

(** The scanner of [json.decoder] on the documents made of [null], [true],
    [false], integer literals, strings without escapes, arrays and
    objects; [None] is a [JSONDecodeError], and also the answer to a
    document outside this fragment.  [fuel] bounds the depth of the calls,
    which is at most twice the length of the text. *)
Fixpoint scan_once (fuel : nat) (s : str) : option (json * str) :=
  match fuel with
  | O => None
  | S k =>
      match s with
      | [] => None
      | c :: s' =>
          if (c =? 34)%N then
            match scan_string s' with
            | Some (chars, rest) => Some (JStr chars, rest)
            | None => None
            end
          else if (c =? 123)%N then
            match skip_space s' with
            | d :: rest =>
                if (d =? 125)%N then Some (JObj [], rest)
                else
                  match scan_members k (d :: rest) [] with
                  | Some (fields, rest') => Some (JObj fields, rest')
                  | None => None
                  end
            | [] => None
            end
          else if (c =? 91)%N then
            match skip_space s' with
            | d :: rest =>
                if (d =? 93)%N then Some (JArr [], rest)
                else
                  match scan_elements k (d :: rest) with
                  | Some (items, rest') => Some (JArr items, rest')
                  | None => None
                  end
            | [] => None
            end
          else if startswith s (lit "null") then Some (JNull, skipn 4 s)
          else if startswith s (lit "true") then Some (JBool true, skipn 4 s)
          else if startswith s (lit "false") then Some (JBool false, skipn 5 s)
          else scan_integer s
      end
  end
with scan_elements (fuel : nat) (s : str) : option (list json * str) :=
  match fuel with
  | O => None
  | S k =>
      match scan_once k s with
      | Some (v, rest) =>
          match skip_space rest with
          | d :: rest' =>
              if (d =? 93)%N then Some ([v], rest')
              else if (d =? 44)%N then
                match scan_elements k (skip_space rest') with
                | Some (items, rest'') => Some (v :: items, rest'')
                | None => None
                end
              else None
          | [] => None
          end
      | None => None
      end
  end
with scan_members (fuel : nat) (s : str) (fields : list (str * json))
    : option (list (str * json) * str) :=
  match fuel with
  | O => None
  | S k =>
      match s with
      | q :: s' =>
          if (q =? 34)%N then
            match scan_string s' with
            | Some (key, rest) =>
                match skip_space rest with
                | colon :: rest' =>
                    if (colon =? 58)%N then
                      match scan_once k (skip_space rest') with
                      | Some (v, rest'') =>
                          let fields' := dict_set fields key v in
                          match skip_space rest'' with
                          | d :: rest3 =>
                              if (d =? 125)%N then Some (fields', rest3)
                              else if (d =? 44)%N
                              then scan_members k (skip_space rest3) fields'
                              else None
                          | [] => None
                          end
                      | None => None
                      end
                    else None
                | [] => None
                end
            | None => None
            end
          else None
      | [] => None
      end
  end.

(** [json.loads(s)] on that fragment: one value, with whitespace around
    it and nothing else. *)
Definition json_loads (s : str) : outcome json :=
  match scan_once (2 * length s + 2) (skip_space s) with
  | Some (v, rest) =>
      match skip_space rest with
      | [] => Return v
      | _ => Raise (LibraryError (lit "json.JSONDecodeError"))
      end
  | None => Raise (LibraryError (lit "json.JSONDecodeError"))
  end.

End Ref.

(** ** The notions of the specification *)

(** The excluded set as the specification lists it, without the dot that
    [os.path.splitext] keeps at the head of an extension. *)
Definition excluded_extensions : list str :=
  [lit "png"; lit "jpg"; lit "gif"; lit "zip"; lit "exe"; lit "pyc"; lit "lock"].

(** A name is excluded when it starts with a dot, or when its extension in
    lower case is the dot and a member of the excluded set. *)
Definition excluded_by_spec (str_lower : str -> str) (name : str) : Prop :=
  (exists rest, name = extsep :: rest)
  \/ (exists e, In e excluded_extensions
                /\ str_lower (snd (splitext name)) = extsep :: e).

(** [filtered excluded names kept]: [kept] is [names] without exactly the
    excluded ones, the others in their order. *)
Inductive filtered (excluded : str -> Prop) : list str -> list str -> Prop :=
| filtered_nil : filtered excluded [] []
| filtered_drop name names kept :
    excluded name -> filtered excluded names kept ->
    filtered excluded (name :: names) kept
| filtered_keep name names kept :
    ~ excluded name -> filtered excluded names kept ->
    filtered excluded (name :: names) (name :: kept).

(** The name of an entry of a listing, when it has one that is a string. *)
Definition entry_name (f : json) : option str :=
  match subscript f (lit "name") with
  | Return (JStr s) => Some s
  | _ => None
  end.

(** The segments of a URL that are not empty, after stripping the trailing
    slashes and splitting on the slash. *)
Definition nonempty_segments (repo_url : str) : list str :=
  filter (fun seg => negb (str_eqb seg [])) (split (rstrip repo_url sep) sep).

(** A dict with exactly the three keys of an analysis result. *)
Definition has_three_fields (v : json) : bool :=
  match v with
  | JObj fields =>
      (length fields =? 3)%nat
      && match dict_get fields (lit "summary"),
               dict_get fields (lit "technologies"),
               dict_get fields (lit "structure") with
         | Some _, Some _, Some _ => true
         | _, _, _ => false
         end
  | _ => false
  end.

Definition is_text (v : json) : bool :=
  match v with JStr _ => true | _ => false end.

(** An analysis result: exactly the three fields, [summary] and
    [structure] texts, [technologies] a sequence of strings. *)
Definition is_analysis_result (v : json) : bool :=
  has_three_fields v
  && match v with
     | JObj fields =>
         match dict_get fields (lit "summary"),
               dict_get fields (lit "technologies"),
               dict_get fields (lit "structure") with
         | Some s, Some (JArr techs), Some t =>
             is_text s && forallb is_text techs && is_text t
         | _, _, _ => false
         end
     | _ => false
     end.

(** The two requests of a call, for an owner and a repository name. *)
Definition tree_request (token : option str) (owner repo_name : str) : request :=
  {| url := tree_url owner repo_name; headers := request_headers token |}.

Definition readme_request (token : option str) (owner repo_name : str)
    : request :=
  {| url := readme_url owner repo_name; headers := request_headers token |}.

(** The value bound to a header name. *)
Fixpoint header_get (h : list (str * option str)) (name : str)
    : option (option str) :=
  match h with
  | [] => None
  | (k, v) :: h' => if str_eqb k name then Some v else header_get h' name
  end.

(** ** Concrete inputs *)

Module Sample.

(** A listing entry with the fields the provider sends along. *)
Definition entry (name kind : str) : json :=
  JObj [ (lit "name", JStr name); (lit "path", JStr name);
         (lit "type", JStr kind) ].

Definition listing : list json :=
  [ entry (lit "main.py") (lit "file"); entry (lit "logo.png") (lit "file");
    entry (lit ".git") (lit "dir") ].

Definition listing_names : list str :=
  [lit "main.py"; lit "logo.png"; lit ".git"].

Definition repo_url : str := lit "https://github.com/acme/widgets".

Definition token : option str := Some (lit "s3cret").

(** The readme document of the provider: [SGVsbG8=] is the base64 text of
    [Hello]. *)
Definition readme_document : json :=
  JObj [ (lit "name", JStr (lit "README.md"));
         (lit "content", JStr (lit "SGVsbG8=")) ].

(** A provider that serves the listing and the readme of acme/widgets. *)
Definition provider (req : request) : outcome response :=
  if str_eqb (url req) (tree_url (lit "acme") (lit "widgets"))
  then Return {| status_code := 200; json_body := Return (JArr listing) |}
  else if str_eqb (url req) (readme_url (lit "acme") (lit "widgets"))
  then Return {| status_code := 200; json_body := Return readme_document |}
  else Return {| status_code := 404; json_body := Return JNull |}.

(** A provider that refuses the listing and has no readme. *)
Definition provider_forbidden (req : request) : outcome response :=
  if str_eqb (url req) (tree_url (lit "acme") (lit "widgets"))
  then Return {| status_code := 403; json_body := Return JNull |}
  else Return {| status_code := 404; json_body := Return JNull |}.

(** A provider that answers every request with the same status. *)
Definition provider_status (status : Z) (req : request) : outcome response :=
  Return {| status_code := status; json_body := Return JNull |}.

(** A completion service that replies with the text [reply]. *)
Definition replies (reply : str) (req : chat_request) : outcome completion :=
  Return {| choices := [ {| message_content := Some reply |} ] |}.

(** A completion service that cannot be reached. *)
Definition unreachable (req : chat_request) : outcome completion :=
  Raise (LibraryError (lit "openai.APIConnectionError")).

(** A completion with no choice, and one whose content is [None]. *)
Definition no_choice (req : chat_request) : outcome completion :=
  Return {| choices := [] |}.

Definition no_content (req : chat_request) : outcome completion :=
  Return {| choices := [ {| message_content := None |} ] |}.

(** The text of a JSON document written with ' for the double quote. *)
Definition doc (s : string) : str :=
  map (fun c => if (c =? 39)%N then dquote else c) (lit s).
Arguments doc s%_string.

(** A reply of the expected shape, fenced, and replies of other shapes. *)
Definition good_reply : str :=
  fence ++ lit "json" ++ nl
  ++ doc "{'summary': 'A widget library.', 'technologies': ['Python'], 'structure': 'One module.'}"
  ++ nl ++ fence ++ nl.

Definition other_shape_reply : str := doc "{'error': 'no readme', 'code': 3}".

Definition array_reply : str := lit "[]".

Definition prose_reply : str := lit "Sure! Here is the summary you asked for.".

End Sample.

(** ** The HTTP shell of [main.py] *)

(** What [JSONResponse(status_code=..., content=...)] is built from. *)
Record json_response : Type := {
  response_status_code : Z;
  response_content : json
}.

Section Handlers.

(** [str(exc)]. *)
Variable exn_str : exn -> str.

(** Lines 25 to 30. *)
Definition global_exception_handler (exc : exn) : json_response :=
  {| response_status_code := 500;
     response_content :=
       JObj [ (lit "status", JStr (lit "error"));
              (lit "message",
               JStr (lit "Internal Server Error: " ++ exn_str exc)) ] |}.

(** Lines 32 to 37, on the [status_code] and the [detail] of the
    exception. *)
Definition custom_http_exception_handler (status_code : Z) (detail : str)
    : json_response :=
  {| response_status_code := status_code;
     response_content :=
       JObj [ (lit "status", JStr (lit "error"));
              (lit "message", JStr detail) ] |}.

(** The handler that the two [@app.exception_handler] registrations give
    an exception raised by the endpoint: the one of [HTTPException] for an
    [HTTPException], the one of [Exception] for what else derives from
    [Exception], none otherwise. *)
Definition exception_response (exc : exn) : option json_response :=
  match exc with
  | HTTPException status_code detail =>
      Some (custom_http_exception_handler status_code detail)
  | BaseOnly _ => None
  | _ => Some (global_exception_handler exc)
  end.

End Handlers.

(** Lines 162 to 164. *)
Definition home : json :=
  JObj [ (lit "message",
          JStr (lit "Service is running! Send POST to /summarize")) ].

(** ** More notions and inputs *)

Definition backtick : char := 96%N.

(** Whether a fence occurs in a text. *)
Fixpoint has_fence (s : str) : bool :=
  match s with
  | [] => false
  | _ :: s' => startswith s fence || has_fence s'
  end.

(** A reply wrapped in a fence, with or without the language tag. *)
Definition fenced_json (text : str) : str :=
  fence ++ lit "json" ++ nl ++ text ++ nl ++ fence.

Definition fenced (text : str) : str := fence ++ nl ++ text ++ nl ++ fence.

(** The media type of the [Accept] header. *)
Definition media_type : str := lit "application/vnd.github.v3+json".

(** What every request of the program carries: the header dict of lines
    66 to 69, with the media type under [Accept], and a URL of the
    provider's [repos] API. *)
Definition well_formed_request (token : option str) (req : request) : Prop :=
  headers req = request_headers token
  /\ header_get (headers req) (lit "Accept") = Some (Some media_type)
  /\ startswith (url req) (lit "https://api.github.com/repos/") = true.

(** The three errors of an operation on a value of the wrong shape. *)
Definition shape_error (e : exn) : Prop :=
  e = TypeError \/ e = KeyError \/ e = AttributeError.

Module Probe.

(** [str(exc)] of the exceptions of the model, for running the handlers. *)
Definition exn_str (e : exn) : str :=
  match e with
  | HTTPException status_code detail => detail
  | TypeError => lit "TypeError"
  | KeyError => lit "'name'"
  | IndexError => lit "list index out of range"
  | AttributeError => lit "AttributeError"
  | LibraryError name => name
  | BaseOnly name => name
  end.

(** A listing with an entry that has no name. *)
Definition nameless_listing : list json :=
  [ Sample.entry (lit "main.py") (lit "file");
    JObj [ (lit "path", JStr (lit "docs")) ] ].

(** A provider whose listing is [body], and which has no readme. *)
Definition provider_listing (body : json) (req : request) : outcome response :=
  if str_eqb (url req) (tree_url (lit "acme") (lit "widgets"))
  then Return {| status_code := 200; json_body := Return body |}
  else Return {| status_code := 404; json_body := Return JNull |}.

(** A provider that cannot be reached. *)
Definition provider_down (req : request) : outcome response :=
  Raise (LibraryError (lit "httpx.ConnectError")).

(** A provider that serves the listing and redirects the readme. *)
Definition provider_moved (req : request) : outcome response :=
  if str_eqb (url req) (tree_url (lit "acme") (lit "widgets"))
  then Return {| status_code := 200; json_body := Return (JArr Sample.listing) |}
  else Return {| status_code := 301; json_body := Return JNull |}.

End Probe.

(** ** Strings: basic facts *)

Lemma char_eqb_eq (a b : char) : char_eqb a b = true <-> a = b.
Proof. apply N.eqb_eq. Qed.

Lemma str_eqb_eq (a b : str) : str_eqb a b = true <-> a = b.
Proof.
  revert b; induction a as [|x a IH]; intros [|y b]; simpl; split;
    try congruence; try reflexivity.
  - intros H. apply andb_true_iff in H as [Hx Ha].
    apply char_eqb_eq in Hx. apply IH in Ha. congruence.
  - intros H. injection H as -> ->. apply andb_true_iff. split.
    + now apply char_eqb_eq.
    + now apply IH.
Qed.

Lemma str_eqb_refl (a : str) : str_eqb a a = true.
Proof. now apply str_eqb_eq. Qed.

Lemma str_in_In (x : str) (l : list str) : str_in x l = true <-> In x l.
Proof.
  unfold str_in. rewrite existsb_exists. split.
  - intros (y & Hy & E). apply str_eqb_eq in E. now subst.
  - intros H. exists x. split; [assumption | apply str_eqb_refl].
Qed.

Lemma startswith_dot (name : str) :
  startswith name (lit ".") = true <-> exists rest, name = extsep :: rest.
Proof.
  change (lit ".") with [extsep]. destruct name as [|x rest]; simpl.
  - split; [discriminate | intros (r & H); discriminate].
  - rewrite andb_true_r, char_eqb_eq. split.
    + intros ->. now exists rest.
    + intros (r & H). now injection H.
Qed.

Lemma ignored_extensions_spec :
  ignored_extensions = map (cons extsep) excluded_extensions.
Proof. reflexivity. Qed.

(** The highest index of a character that does not occur is the default. *)
Lemma rfind_from_absent (c : char) (s : str) (i found : Z) :
  ~ In c s -> rfind_from c s i found = found.
Proof.
  revert i found; induction s as [|x s IH]; intros i found H; simpl.
  - reflexivity.
  - destruct (char_eqb x c) eqn:E.
    + apply char_eqb_eq in E. subst. exfalso. apply H. now left.
    + apply IH. intros Hin. apply H. now right.
Qed.

Lemma rfind_from_lower (c : char) (s : str) (i found : Z) :
  found < i -> found <= rfind_from c s i found.
Proof.
  revert i found; induction s as [|x s IH]; intros i found H; simpl.
  - lia.
  - destruct (char_eqb x c).
    + specialize (IH (i + 1) i). lia.
    + specialize (IH (i + 1) found). lia.
Qed.

Lemma rfind_from_present (c : char) (s : str) (i found : Z) :
  In c s -> i <= rfind_from c s i found.
Proof.
  revert i found; induction s as [|x s IH]; intros i found H; simpl.
  - destruct H.
  - destruct (char_eqb x c) eqn:E.
    + pose proof (rfind_from_lower c s (i + 1) i). lia.
    + destruct H as [H | H].
      * apply char_eqb_eq in H. congruence.
      * specialize (IH (i + 1) found H). lia.
Qed.

Lemma rfind_absent (s : str) (c : char) : ~ In c s -> rfind s c = -1.
Proof. apply rfind_from_absent. Qed.

Lemma rfind_lower (s : str) (c : char) : -1 <= rfind s c.
Proof. unfold rfind. apply rfind_from_lower. lia. Qed.

(** ** [os.path.splitext] *)

(** A name without a dot has no extension. *)
Lemma splitext_no_dot (p : str) : ~ In extsep p -> splitext p = (p, []).
Proof.
  intros H. unfold splitext. rewrite (rfind_absent p extsep H).
  pose proof (rfind_lower p sep).
  destruct (rfind p sep <? -1) eqn:E; [apply Z.ltb_lt in E; lia | reflexivity].
Qed.

(** For a plain file name (no slash, no leading dot) that holds a dot, the
    extension is the text from the last dot on. *)
Lemma splitext_plain_name (p : str) :
  ~ In sep p -> startswith p (lit ".") = false -> In extsep p ->
  1 <= rfind p extsep
  /\ splitext p = (slice_to p (rfind p extsep), slice_from p (rfind p extsep)).
Proof.
  intros Hsep Hdot Hin. unfold splitext. rewrite (rfind_absent p sep Hsep).
  destruct p as [|x p]; [destruct Hin|].
  assert (Hx : char_eqb x extsep = false).
  { change (lit ".") with [extsep] in Hdot. simpl in Hdot.
    now rewrite andb_true_r in Hdot. }
  assert (Hd : 1 <= rfind (x :: p) extsep).
  { unfold rfind. simpl. rewrite Hx. apply rfind_from_present.
    destruct Hin as [-> | Hin]; [|assumption].
    rewrite (proj2 (char_eqb_eq extsep extsep) eq_refl) in Hx. discriminate. }
  split; [assumption|].
  destruct (-1 <? rfind (x :: p) extsep) eqn:E;
    [|apply Z.ltb_ge in E; lia].
  cbv zeta. change (-1 + 1) with 0.
  destruct (Z.to_nat (rfind (x :: p) extsep - 0)) as [|k] eqn:Ek; [lia|].
  simpl skip_leading_dots. unfold slice. simpl.
  rewrite Hx. reflexivity.
Qed.

(** ** The filename filter *)

Section Filter.

Variable str_lower : str -> str.

Lemma should_include_file_true (name : str) :
  should_include_file str_lower name = true ->
  ~ excluded_by_spec str_lower name.
Proof.
  unfold should_include_file, excluded_by_spec.
  destruct (startswith name (lit ".")) eqn:Hdot; [discriminate|].
  rewrite negb_true_iff, <- not_true_iff_false, str_in_In.
  rewrite ignored_extensions_spec, in_map_iff.
  intros H [Hd | (e & He & E)].
  - apply startswith_dot in Hd. congruence.
  - apply H. exists e. split; [now symmetry | assumption].
Qed.

Lemma should_include_file_false (name : str) :
  should_include_file str_lower name = false ->
  excluded_by_spec str_lower name.
Proof.
  unfold should_include_file, excluded_by_spec.
  destruct (startswith name (lit ".")) eqn:Hdot.
  - intros _. left. now apply startswith_dot.
  - rewrite negb_false_iff, str_in_In.
    rewrite ignored_extensions_spec, in_map_iff.
    intros (e & E & He). right. exists e. split; [assumption | now symmetry].
Qed.

Lemma filter_filtered (names : list str) :
  filtered (excluded_by_spec str_lower) names
    (filter (should_include_file str_lower) names).
Proof.
  induction names as [|n names IH]; simpl.
  - constructor.
  - destruct (should_include_file str_lower n) eqn:E.
    + apply filtered_keep; [now apply should_include_file_true | assumption].
    + apply filtered_drop; [now apply should_include_file_false | assumption].
Qed.

(** What [filtered] says of membership. *)
Lemma filtered_In (excluded : str -> Prop) (names kept : list str) :
  filtered excluded names kept ->
  forall name, In name kept -> In name names /\ ~ excluded name.
Proof.
  induction 1 as [|n names kept Hn _ IH|n names kept Hn _ IH]; intros name Hin.
  - destruct Hin.
  - destruct (IH name Hin) as [H1 H2]. split; [now right | assumption].
  - destruct Hin as [<- | Hin].
    + split; [now left | assumption].
    + destruct (IH name Hin) as [H1 H2]. split; [now right | assumption].
Qed.

Lemma filtered_In_kept (excluded : str -> Prop) (names kept : list str) :
  filtered excluded names kept ->
  forall name, In name names -> ~ excluded name -> In name kept.
Proof.
  induction 1 as [|n names kept Hn _ IH|n names kept Hn _ IH];
    intros name Hin Hex.
  - destruct Hin.
  - destruct Hin as [<- | Hin]; [contradiction | now apply IH].
  - destruct Hin as [<- | Hin]; [now left | right; now apply IH].
Qed.

(** The comprehension over a listing whose entries carry the names
    [names] is the filter over [names]. *)
Lemma file_list_of_names (elements : list json) (names : list str) :
  map entry_name elements = map Some names ->
  file_list_of str_lower elements
  = Return (filter (should_include_file str_lower) names).
Proof.
  revert names; induction elements as [|f elements IH]; intros [|n names] H;
    try discriminate.
  - reflexivity.
  - simpl in H. injection H as Hf Hrest. specialize (IH names Hrest).
    unfold entry_name in Hf. simpl.
    destruct (subscript f (lit "name")) as [[| | | |s| |]|e]; try discriminate.
    injection Hf as ->. simpl. rewrite IH.
    destruct (should_include_file str_lower n); reflexivity.
Qed.

End Filter.

(** ** The filename filter: the claims *)

(** The listing of the specification keeps [main.py] only. *)
Example file_list_of_sample :
  file_list_of Ref.str_lower Sample.listing = Return [lit "main.py"].
Proof. reflexivity. Qed.

Example should_include_file_samples :
  map (should_include_file Ref.str_lower)
    [lit "main.py"; lit "logo.PNG"; lit "Cargo.lock"; lit ".gitignore";
     lit "archive.tar.gz"; lit "notes."; lit "Makefile"; lit "png"]
  = [true; false; false; false; true; true; true; true].
Proof. reflexivity. Qed.

(** C1. For every list of file names carried by the entries of a listing,
    the comprehension of [get_repo_data] returns the names without
    exactly those that start with a dot or whose extension in lower case
    is in the excluded set (png, jpg, gif, zip, exe, pyc, lock); every
    other name is kept, in the order of the input. *)
Theorem C1_filename_filter :
  forall (str_lower : str -> str) (elements : list json) (names : list str),
    map entry_name elements = map Some names ->
    exists kept,
      file_list_of str_lower elements = Return kept
      /\ kept = filter (should_include_file str_lower) names
      /\ filtered (excluded_by_spec str_lower) names kept
      /\ (forall name,
            In name kept
            <-> In name names /\ ~ excluded_by_spec str_lower name).
Proof.
  intros str_lower elements names H.
  exists (filter (should_include_file str_lower) names).
  pose proof (filter_filtered str_lower names) as F.
  repeat split.
  - now apply file_list_of_names.
  - exact F.
  - now apply (filtered_In _ _ _ F).
  - now apply (filtered_In _ _ _ F).
  - intros [H1 H2]. now apply (filtered_In_kept _ _ _ F).
Qed.

Lemma C1_filename_filter_witness :
  map entry_name Sample.listing = map Some Sample.listing_names
  /\ exists kept,
      file_list_of Ref.str_lower Sample.listing = Return kept
      /\ kept = filter (should_include_file Ref.str_lower) Sample.listing_names
      /\ filtered (excluded_by_spec Ref.str_lower) Sample.listing_names kept
      /\ (forall name,
            In name kept
            <-> In name Sample.listing_names
                /\ ~ excluded_by_spec Ref.str_lower name).
Proof.
  split.
  - reflexivity.
  - apply (C1_filename_filter Ref.str_lower Sample.listing Sample.listing_names).
    reflexivity.
Defined.

(** C10. A file name that does not start with a dot and holds no dot
    ([Makefile], [LICENSE], [Dockerfile]) has the empty extension and is
    included, the lower case of the empty string being empty. *)
Theorem C10_no_extension_included :
  forall (str_lower : str -> str) (filename : str),
    str_lower [] = [] ->
    startswith filename (lit ".") = false ->
    ~ In extsep filename ->
    snd (splitext filename) = []
    /\ str_in (str_lower (snd (splitext filename))) ignored_extensions = false
    /\ should_include_file str_lower filename = true.
Proof.
  intros str_lower filename Hlower Hdot Hnone.
  pose proof (splitext_no_dot filename Hnone) as E.
  unfold should_include_file. rewrite Hdot, E. simpl snd. rewrite Hlower.
  repeat split; reflexivity.
Qed.

Lemma C10_no_extension_included_witness :
  (Ref.str_lower [] = []
   /\ startswith (lit "Makefile") (lit ".") = false
   /\ ~ In extsep (lit "Makefile"))
  /\ snd (splitext (lit "Makefile")) = []
  /\ str_in (Ref.str_lower (snd (splitext (lit "Makefile")))) ignored_extensions
     = false
  /\ should_include_file Ref.str_lower (lit "Makefile") = true.
Proof.
  assert (H : ~ In extsep (lit "Makefile")).
  { cbv. intuition discriminate. }
  split.
  - repeat split; [reflexivity .. | exact H].
  - apply (C10_no_extension_included Ref.str_lower (lit "Makefile"));
      [reflexivity | reflexivity | exact H].
Defined.

(** ** The fetcher: how a call unfolds *)

Lemma index_last_two {A : Type} (pre : list A) (a b : A) :
  index (pre ++ [a; b]) (-2) = Some a /\ index (pre ++ [a; b]) (-1) = Some b.
Proof.
  unfold index. rewrite length_app. simpl length.
  change (-2 <? 0) with true. change (-1 <? 0) with true. cbv beta iota zeta.
  destruct (Z.of_nat (length pre + 2) + -2 <? 0) eqn:L2;
    [apply Z.ltb_lt in L2; lia|].
  destruct (Z.of_nat (length pre + 2) + -1 <? 0) eqn:L1;
    [apply Z.ltb_lt in L1; lia|].
  replace (Z.to_nat (Z.of_nat (length pre + 2) + -2))
    with (length pre + 0)%nat by lia.
  replace (Z.to_nat (Z.of_nat (length pre + 2) + -1))
    with (length pre + 1)%nat by lia.
  rewrite !nth_error_app2 by lia.
  replace (length pre + 0 - length pre)%nat with 0%nat by lia.
  replace (length pre + 1 - length pre)%nat with 1%nat by lia.
  split; reflexivity.
Qed.

(** A list of two or more ends in its last two. *)
Lemma last_two_split {A : Type} (l : list A) :
  (2 <= length l)%nat -> exists pre a b, l = pre ++ [a; b].
Proof.
  intros H. destruct l as [|x l] using rev_ind; [simpl in H; lia|].
  destruct l as [|y l _] using rev_ind.
  - simpl in H. lia.
  - exists l, y, x. now rewrite <- app_assoc.
Qed.

(** The number of segments is one more than the number of separators. *)
Lemma split_length (s : str) (c : char) :
  length (split s c) = S (length (filter (fun x => char_eqb x c) s)).
Proof.
  induction s as [|x s IH]; simpl; [reflexivity|].
  destruct (char_eqb x c); simpl.
  - now rewrite IH.
  - destruct (split s c) as [|seg segs]; simpl in *; congruence.
Qed.

Lemma parse_repo_url_last_two (repo_url : str) (pre : list str)
    (owner repo_name : str) :
  split (rstrip repo_url sep) sep = pre ++ [owner; repo_name] ->
  parse_repo_url repo_url = Return (owner, repo_name).
Proof.
  intros H. unfold parse_repo_url. cbv zeta. rewrite H.
  destruct (index_last_two pre owner repo_name) as [-> ->].
  rewrite length_app. simpl length.
  destruct (Z.of_nat (length pre + 2) <? 2) eqn:L;
    [apply Z.ltb_lt in L; lia | reflexivity].
Qed.

Lemma parse_repo_url_short (repo_url : str) :
  Z.of_nat (length (split (rstrip repo_url sep) sep)) < 2 ->
  parse_repo_url repo_url
  = Raise (HTTPException 400 (lit "Invalid GitHub URL")).
Proof.
  intros H. unfold parse_repo_url. cbv zeta.
  apply Z.ltb_lt in H. now rewrite H.
Qed.

(** The parse fails in one way only, and only on fewer than two
    segments. *)
Lemma parse_repo_url_cases (repo_url : str) :
  (Z.of_nat (length (split (rstrip repo_url sep) sep)) < 2
   /\ parse_repo_url repo_url
      = Raise (HTTPException 400 (lit "Invalid GitHub URL")))
  \/ (exists pre owner repo_name,
        split (rstrip repo_url sep) sep = pre ++ [owner; repo_name]
        /\ parse_repo_url repo_url = Return (owner, repo_name)).
Proof.
  destruct (Z.ltb_spec (Z.of_nat (length (split (rstrip repo_url sep) sep))) 2)
    as [L | L].
  - left. split; [assumption | now apply parse_repo_url_short].
  - right. destruct (last_two_split (split (rstrip repo_url sep) sep))
      as (pre & a & b & E); [lia|].
    exists pre, a, b. split; [assumption | now apply parse_repo_url_last_two with pre].
Qed.

Section Fetcher.

Variable str_lower : str -> str.
Variable b64decode : str -> outcome (list N).
Variable utf8_decode : list N -> outcome str.
Variable GITHUB_TOKEN : option str.
Variable http_get : request -> outcome response.

Local Abbreviation fetch :=
  (get_repo_data str_lower b64decode utf8_decode GITHUB_TOKEN http_get).
Local Abbreviation listing_request := (tree_request GITHUB_TOKEN).
Local Abbreviation text_request := (readme_request GITHUB_TOKEN).

(** A rejected URL ends the call before any request. *)
Lemma fetch_rejected (repo_url : str) (e : exn) :
  parse_repo_url repo_url = Raise e -> run (fetch repo_url) = (Raise e, []).
Proof.
  intros H. unfold run, get_repo_data, io_bind, io_lift. now rewrite H.
Qed.

(** An accepted URL: the listing request, the file list, the readme
    request, the readme text, each step ending the call when it raises. *)
Lemma fetch_accepted (repo_url owner repo_name : str) :
  parse_repo_url repo_url = Return (owner, repo_name) ->
  run (fetch repo_url)
  = match http_get (listing_request owner repo_name) with
    | Raise e => (Raise e, [listing_request owner repo_name])
    | Return tree_resp =>
        match file_list_of_response str_lower tree_resp with
        | Raise e => (Raise e, [listing_request owner repo_name])
        | Return file_list =>
            match http_get (text_request owner repo_name) with
            | Raise e =>
                (Raise e,
                 [listing_request owner repo_name; text_request owner repo_name])
            | Return readme_resp =>
                (match readme_content_of_response b64decode utf8_decode
                         readme_resp with
                 | Raise e => Raise e
                 | Return readme_content => Return (readme_content, file_list)
                 end,
                 [listing_request owner repo_name; text_request owner repo_name])
            end
        end
    end.
Proof.
  intros H.
  unfold run, get_repo_data, io_bind, io_lift, io_ret, get,
    tree_request, readme_request.
  rewrite H. simpl.
  destruct (http_get _) as [tree_resp|e]; [|reflexivity].
  destruct (file_list_of_response str_lower tree_resp) as [file_list|e];
    [|reflexivity].
  simpl.
  destruct (http_get _) as [readme_resp|e]; [|reflexivity].
  destruct (readme_content_of_response _ _ readme_resp); reflexivity.
Qed.

(** An accepted URL: the listing request is the first one made. *)
Lemma fetch_first_request (repo_url owner repo_name : str) :
  parse_repo_url repo_url = Return (owner, repo_name) ->
  exists rest,
    snd (run (fetch repo_url)) = listing_request owner repo_name :: rest.
Proof.
  intros P. rewrite (fetch_accepted repo_url owner repo_name P).
  destruct (http_get (listing_request _ _)) as [tree_resp|e]; [|now eexists].
  destruct (file_list_of_response str_lower tree_resp); [|now eexists].
  destruct (http_get (text_request _ _)); now eexists.
Qed.

End Fetcher.

(** ** The fetcher: the claims *)

(** The call of the specification's example, with a token. *)
Example fetch_sample :
  run (get_repo_data Ref.str_lower Ref.b64decode Ref.utf8_decode Sample.token
         Sample.provider Sample.repo_url)
  = (Return (lit "Hello", [lit "main.py"]),
     [ tree_request Sample.token (lit "acme") (lit "widgets");
       readme_request Sample.token (lit "acme") (lit "widgets") ]).
Proof. reflexivity. Qed.

(** Trailing slashes are dropped before the split. *)
Example parse_repo_url_trailing_slashes :
  parse_repo_url (lit "https://github.com/acme/widgets///")
  = Return (lit "acme", lit "widgets").
Proof. reflexivity. Qed.

(** C9. The URL [https://github.com/acme/widgets] gives the pair
    (acme, widgets); in general the owner and the repository name are the
    last two segments of the URL split on the slash after its trailing
    slashes are stripped, and they are the pair the first request is built
    from. *)
Theorem C9_owner_and_repo_name :
  parse_repo_url (lit "https://github.com/acme/widgets")
  = Return (lit "acme", lit "widgets")
  /\ (forall repo_url owner repo_name,
        parse_repo_url repo_url = Return (owner, repo_name) ->
        exists pre, split (rstrip repo_url sep) sep = pre ++ [owner; repo_name])
  /\ (forall str_lower b64decode utf8_decode GITHUB_TOKEN http_get
             repo_url pre owner repo_name,
        split (rstrip repo_url sep) sep = pre ++ [owner; repo_name] ->
        parse_repo_url repo_url = Return (owner, repo_name)
        /\ exists rest,
            snd (run (get_repo_data str_lower b64decode utf8_decode GITHUB_TOKEN
                        http_get repo_url))
            = tree_request GITHUB_TOKEN owner repo_name :: rest).
Proof.
  split; [reflexivity|]. split.
  - intros repo_url owner repo_name H.
    destruct (parse_repo_url_cases repo_url) as [[_ E] | (pre & a & b & E & P)].
    + congruence.
    + exists pre. congruence.
  - intros str_lower b64decode utf8_decode GITHUB_TOKEN http_get repo_url pre
      owner repo_name H.
    pose proof (parse_repo_url_last_two repo_url pre owner repo_name H) as P.
    split; [assumption|].
    now apply fetch_first_request.
Qed.

Lemma C9_owner_and_repo_name_witness :
  split (rstrip Sample.repo_url sep) sep
  = [lit "https:"; []; lit "github.com"] ++ [lit "acme"; lit "widgets"]
  /\ parse_repo_url Sample.repo_url = Return (lit "acme", lit "widgets")
  /\ exists rest,
      snd (run (get_repo_data Ref.str_lower Ref.b64decode Ref.utf8_decode
                  Sample.token Sample.provider Sample.repo_url))
      = tree_request Sample.token (lit "acme") (lit "widgets") :: rest.
Proof.
  split; [reflexivity|].
  apply (proj2 (proj2 C9_owner_and_repo_name) Ref.str_lower Ref.b64decode
           Ref.utf8_decode Sample.token Sample.provider Sample.repo_url
           [lit "https:"; []; lit "github.com"]).
  reflexivity.
Defined.

(** C4, as the specification states it, fails on [/widgets]: the URL has
    one non-empty segment, and the fetcher, run with a token against a
    provider that answers 404, goes on to both requests, with the empty
    string as owner. *)
Lemma C4_counterexample :
  nonempty_segments (lit "/widgets") = [lit "widgets"]
  /\ run (get_repo_data Ref.str_lower Ref.b64decode Ref.utf8_decode
            Sample.token (Sample.provider_status 404) (lit "/widgets"))
     = (Return (lit "No README found.", []),
        [ tree_request Sample.token [] (lit "widgets");
          readme_request Sample.token [] (lit "widgets") ]).
Proof. split; reflexivity. Qed.

(** C4, amended. A URL that splits into fewer than two segments, empty
    ones counted, after its trailing slashes are stripped, is rejected
    with the status 400 before any request; a URL of two segments or more
    passes the check and the listing request is made. *)
Theorem C4_short_url_rejected :
  forall str_lower b64decode utf8_decode GITHUB_TOKEN http_get repo_url,
    (Z.of_nat (length (split (rstrip repo_url sep) sep)) < 2 ->
     run (get_repo_data str_lower b64decode utf8_decode GITHUB_TOKEN http_get
            repo_url)
     = (Raise (HTTPException 400 (lit "Invalid GitHub URL")), []))
    /\ (2 <= Z.of_nat (length (split (rstrip repo_url sep) sep)) ->
        exists req rest,
          snd (run (get_repo_data str_lower b64decode utf8_decode GITHUB_TOKEN
                      http_get repo_url))
          = req :: rest).
Proof.
  intros str_lower b64decode utf8_decode GITHUB_TOKEN http_get repo_url. split.
  - intros H. apply fetch_rejected. now apply parse_repo_url_short.
  - intros H.
    destruct (parse_repo_url_cases repo_url) as [[L _] | (pre & a & b & E & P)];
      [lia|].
    destruct (fetch_first_request str_lower b64decode utf8_decode GITHUB_TOKEN
                http_get repo_url a b P) as [rest R].
    now exists (tree_request GITHUB_TOKEN a b), rest.
Qed.

Lemma C4_short_url_rejected_witness :
  Z.of_nat (length (split (rstrip (lit "widgets") sep) sep)) < 2
  /\ run (get_repo_data Ref.str_lower Ref.b64decode Ref.utf8_decode Sample.token
            Sample.provider (lit "widgets"))
     = (Raise (HTTPException 400 (lit "Invalid GitHub URL")), []).
Proof.
  split.
  - reflexivity.
  - apply (proj1 (C4_short_url_rejected Ref.str_lower Ref.b64decode
                    Ref.utf8_decode Sample.token Sample.provider
                    (lit "widgets"))).
    reflexivity.
Defined.

(** The check counts separators: a URL passes it exactly when a slash is
    left after the trailing ones are stripped. *)
Lemma short_url_no_separator (repo_url : str) :
  Z.of_nat (length (split (rstrip repo_url sep) sep)) < 2
  <-> ~ In sep (rstrip repo_url sep).
Proof.
  rewrite split_length.
  set (s := rstrip repo_url sep). split.
  - intros H Hin.
    assert (In sep (filter (fun x => char_eqb x sep) s)) as F.
    { apply filter_In. split; [assumption | now apply char_eqb_eq]. }
    destruct (filter (fun x => char_eqb x sep) s); [destruct F | simpl in H; lia].
  - intros H.
    destruct (filter (fun x => char_eqb x sep) s) as [|x l] eqn:E;
      [simpl; lia|].
    exfalso. apply H.
    assert (In x (filter (fun x => char_eqb x sep) s)) as F
      by (rewrite E; now left).
    apply filter_In in F as [F1 F2]. apply char_eqb_eq in F2. now subst.
Qed.

(** A listing response other than 200 gives the empty file list, whatever
    its body. *)
Lemma file_list_of_response_not_200 (str_lower : str -> str)
    (tree_resp : response) :
  status_code tree_resp <> 200 ->
  file_list_of_response str_lower tree_resp = Return [].
Proof.
  intros H. unfold file_list_of_response.
  destruct (Z.eqb_spec (status_code tree_resp) 200); [contradiction | reflexivity].
Qed.

(** C7. When the listing request is answered with a status other than
    200, the file list is empty and no error comes of it: the readme
    request is made next, and the call ends as the readme step does, with
    the empty list beside the text. *)
Theorem C7_listing_failure_tolerated :
  forall str_lower b64decode utf8_decode GITHUB_TOKEN http_get
         repo_url owner repo_name tree_resp,
    parse_repo_url repo_url = Return (owner, repo_name) ->
    http_get (tree_request GITHUB_TOKEN owner repo_name) = Return tree_resp ->
    status_code tree_resp <> 200 ->
    file_list_of_response str_lower tree_resp = Return []
    /\ snd (run (get_repo_data str_lower b64decode utf8_decode GITHUB_TOKEN
                   http_get repo_url))
       = [ tree_request GITHUB_TOKEN owner repo_name;
           readme_request GITHUB_TOKEN owner repo_name ]
    /\ fst (run (get_repo_data str_lower b64decode utf8_decode GITHUB_TOKEN
                   http_get repo_url))
       = (readme_resp <- http_get (readme_request GITHUB_TOKEN owner repo_name) ;;
          readme_content <-
            readme_content_of_response b64decode utf8_decode readme_resp ;;
          Return (readme_content, [])).
Proof.
  intros str_lower b64decode utf8_decode GITHUB_TOKEN http_get repo_url owner
    repo_name tree_resp P T S.
  pose proof (file_list_of_response_not_200 str_lower tree_resp S) as F.
  split; [assumption|].
  rewrite (fetch_accepted str_lower b64decode utf8_decode GITHUB_TOKEN http_get
             repo_url owner repo_name P), T, F.
  destruct (http_get (readme_request _ _ _)) as [readme_resp|e]; simpl;
    [|split; reflexivity].
  destruct (readme_content_of_response _ _ readme_resp); split; reflexivity.
Qed.

Lemma C7_listing_failure_tolerated_witness :
  (parse_repo_url Sample.repo_url = Return (lit "acme", lit "widgets")
   /\ Sample.provider_forbidden
        (tree_request Sample.token (lit "acme") (lit "widgets"))
      = Return {| status_code := 403; json_body := Return JNull |}
   /\ 403 <> 200)
  /\ run (get_repo_data Ref.str_lower Ref.b64decode Ref.utf8_decode Sample.token
            Sample.provider_forbidden Sample.repo_url)
     = (Return (lit "No README found.", []),
        [ tree_request Sample.token (lit "acme") (lit "widgets");
          readme_request Sample.token (lit "acme") (lit "widgets") ]).
Proof.
  assert (S : 403 <> 200) by discriminate.
  split; [split; [reflexivity | split; [reflexivity | exact S]]|].
  destruct (C7_listing_failure_tolerated Ref.str_lower Ref.b64decode
              Ref.utf8_decode Sample.token Sample.provider_forbidden
              Sample.repo_url (lit "acme") (lit "widgets")
              {| status_code := 403; json_body := Return JNull |}
              eq_refl eq_refl S) as (_ & L & R).
  rewrite (surjective_pairing (run _)), L, R. reflexivity.
Defined.

(** C3. Once the readme request is answered: on 200 the call returns the
    content field of the document, base64-decoded and read as UTF-8; on
    404 it returns the text [No README found.]; on any other status it
    raises an [HTTPException] with that status. *)
Theorem C3_readme_by_status :
  forall str_lower b64decode utf8_decode GITHUB_TOKEN http_get
         repo_url owner repo_name tree_resp file_list readme_resp,
    parse_repo_url repo_url = Return (owner, repo_name) ->
    http_get (tree_request GITHUB_TOKEN owner repo_name) = Return tree_resp ->
    file_list_of_response str_lower tree_resp = Return file_list ->
    http_get (readme_request GITHUB_TOKEN owner repo_name) = Return readme_resp ->
    let result :=
      fst (run (get_repo_data str_lower b64decode utf8_decode GITHUB_TOKEN
                  http_get repo_url)) in
    (status_code readme_resp = 200 ->
     forall data encoded raw text,
       json_body readme_resp = Return data ->
       subscript data (lit "content") = Return (JStr encoded) ->
       b64decode encoded = Return raw ->
       utf8_decode raw = Return text ->
       result = Return (text, file_list))
    /\ (status_code readme_resp = 404 ->
        result = Return (lit "No README found.", file_list))
    /\ (status_code readme_resp <> 200 -> status_code readme_resp <> 404 ->
        result
        = Raise (HTTPException (status_code readme_resp) (lit "GitHub API Error"))).
Proof.
  intros str_lower b64decode utf8_decode GITHUB_TOKEN http_get repo_url owner
    repo_name tree_resp file_list readme_resp P T F R result.
  subst result.
  rewrite (fetch_accepted str_lower b64decode utf8_decode GITHUB_TOKEN http_get
             repo_url owner repo_name P), T, F, R.
  unfold readme_content_of_response. simpl fst.
  repeat split.
  - intros S data encoded raw text D E B U.
    rewrite S, D. simpl. rewrite E. simpl. rewrite B. simpl. now rewrite U.
  - intros S. rewrite S. reflexivity.
  - intros S2 S4.
    destruct (Z.eqb_spec (status_code readme_resp) 200); [contradiction|].
    destruct (Z.eqb_spec (status_code readme_resp) 404); [contradiction|].
    reflexivity.
Qed.

Lemma C3_readme_by_status_witness :
  (parse_repo_url Sample.repo_url = Return (lit "acme", lit "widgets")
   /\ Sample.provider (tree_request Sample.token (lit "acme") (lit "widgets"))
      = Return {| status_code := 200;
                  json_body := Return (JArr Sample.listing) |}
   /\ file_list_of_response Ref.str_lower
        {| status_code := 200; json_body := Return (JArr Sample.listing) |}
      = Return [lit "main.py"]
   /\ Sample.provider (readme_request Sample.token (lit "acme") (lit "widgets"))
      = Return {| status_code := 200;
                  json_body := Return Sample.readme_document |}
   /\ Ref.b64decode (lit "SGVsbG8=") = Return [72; 101; 108; 108; 111]%N
   /\ Ref.utf8_decode [72; 101; 108; 108; 111]%N = Return (lit "Hello"))
  /\ fst (run (get_repo_data Ref.str_lower Ref.b64decode Ref.utf8_decode
                 Sample.token Sample.provider Sample.repo_url))
     = Return (lit "Hello", [lit "main.py"]).
Proof.
  split; [repeat split; reflexivity|].
  apply (proj1 (C3_readme_by_status Ref.str_lower Ref.b64decode Ref.utf8_decode
                  Sample.token Sample.provider Sample.repo_url
                  (lit "acme") (lit "widgets")
                  {| status_code := 200;
                     json_body := Return (JArr Sample.listing) |}
                  [lit "main.py"]
                  {| status_code := 200;
                     json_body := Return Sample.readme_document |}
                  eq_refl eq_refl eq_refl eq_refl)
           eq_refl Sample.readme_document (lit "SGVsbG8=")
           [72; 101; 108; 108; 111]%N (lit "Hello"));
    reflexivity.
Defined.

(** The other two statuses of the readme step, on a provider that answers
    everything alike. *)
Example fetch_readme_missing :
  fst (run (get_repo_data Ref.str_lower Ref.b64decode Ref.utf8_decode
              Sample.token (Sample.provider_status 404) Sample.repo_url))
  = Return (lit "No README found.", []).
Proof. reflexivity. Qed.

Example fetch_readme_refused :
  fst (run (get_repo_data Ref.str_lower Ref.b64decode Ref.utf8_decode
              Sample.token (Sample.provider_status 403) Sample.repo_url))
  = Raise (HTTPException 403 (lit "GitHub API Error")).
Proof. reflexivity. Qed.

(** C5, on the code. Without a token, and with an empty one, the header
    dict of both requests binds [Authorization] to [None]: the name is
    present, not left out.  With a token it is bound to the bearer text. *)
Theorem C5_authorization_bound_to_None :
  request_headers None
  = [ (lit "Accept", Some (lit "application/vnd.github.v3+json"));
      (lit "Authorization", None) ]
  /\ request_headers (Some []) = request_headers None
  /\ (forall str_lower b64decode utf8_decode http_get repo_url,
        Forall (fun req => header_get (headers req) (lit "Authorization")
                           = Some None)
          (snd (run (get_repo_data str_lower b64decode utf8_decode None
                       http_get repo_url))))
  /\ (forall c token,
        header_get (request_headers (Some (c :: token))) (lit "Authorization")
        = Some (Some (lit "Bearer " ++ c :: token))).
Proof.
  repeat split.
  intros str_lower b64decode utf8_decode http_get repo_url.
  destruct (parse_repo_url_cases repo_url) as [[_ E] | (pre & a & b & _ & P)].
  - rewrite (fetch_rejected str_lower b64decode utf8_decode None http_get
               repo_url _ E).
    constructor.
  - rewrite (fetch_accepted str_lower b64decode utf8_decode None http_get
               repo_url a b P).
    destruct (http_get (tree_request _ _ _)) as [tree_resp|e];
      [|repeat constructor].
    destruct (file_list_of_response str_lower tree_resp);
      [|repeat constructor].
    destruct (http_get (readme_request _ _ _)); repeat constructor.
Qed.

(** ** The generator: the claims *)

(** The text before the readme in the user message. *)
Lemma user_prompt_eq (readme_text : str) (file_list : list str) :
  user_prompt readme_text file_list
  = lit " " ++ nl ++ lit "    Root Files (Filtered): "
    ++ join (lit ", ") file_list ++ nl
    ++ lit "    README Content (Truncated): " ++ truncated_readme readme_text.
Proof. reflexivity. Qed.

(** A readme of 5001 characters loses its last one. *)
Example truncated_readme_5001 :
  truncated_readme (repeat 97%N 5000 ++ [98%N]) = repeat 97%N 5000.
Proof. vm_compute. reflexivity. Qed.

Example files_str_sample :
  files_str [lit "main.py"; lit "README.md"; lit "Makefile"]
  = lit "main.py, README.md, Makefile".
Proof. reflexivity. Qed.

(** C8. The readme text embedded in the prompt, at the end of the user
    message of the completion request, is the first 5000 characters of
    [readme_text]: a prefix of it, of length 5000 or of the whole length
    when that is smaller; a text of at most 5000 characters is embedded
    unchanged. *)
Theorem C8_readme_truncated :
  forall (readme_text : str) (file_list : list str),
    messages (completion_request readme_text file_list)
    = [ {| role := lit "system"; content := system_prompt |};
        {| role := lit "user";
           content :=
             lit " " ++ nl ++ lit "    Root Files (Filtered): "
             ++ join (lit ", ") file_list ++ nl
             ++ lit "    README Content (Truncated): "
             ++ truncated_readme readme_text |} ]
    /\ truncated_readme readme_text = firstn 5000 readme_text
    /\ (exists rest, readme_text = truncated_readme readme_text ++ rest)
    /\ length (truncated_readme readme_text)
       = Nat.min 5000 (length readme_text)
    /\ ((length readme_text <= 5000)%nat ->
        truncated_readme readme_text = readme_text).
Proof.
  intros readme_text file_list.
  assert (E : truncated_readme readme_text = firstn 5000 readme_text).
  { unfold truncated_readme, slice_to. reflexivity. }
  split; [reflexivity|]. split; [exact E|]. rewrite E. split; [|split].
  - exists (skipn 5000 readme_text). symmetry. apply firstn_skipn.
  - apply length_firstn.
  - apply firstn_all2.
Qed.

Lemma C8_readme_truncated_witness :
  (length (lit "Hello") <= 5000)%nat
  /\ truncated_readme (lit "Hello") = lit "Hello".
Proof.
  assert (L : (length (lit "Hello") <= 5000)%nat) by (vm_compute; lia).
  split; [exact L|].
  exact (proj2 (proj2 (proj2 (proj2
           (C8_readme_truncated (lit "Hello") [lit "main.py"])))) L).
Defined.

(** Runs of the generator on the sample services. *)
Example clean_good_reply :
  clean Sample.good_reply
  = Sample.doc "{'summary': 'A widget library.', 'technologies': ['Python'], 'structure': 'One module.'}".
Proof. reflexivity. Qed.

Example analyze_repo_good_reply :
  analyze_repo Ref.json_loads (Sample.replies Sample.good_reply)
    (lit "Hello") [lit "main.py"]
  = Return (JObj [ (lit "summary", JStr (lit "A widget library."));
                   (lit "technologies", JArr [JStr (lit "Python")]);
                   (lit "structure", JStr (lit "One module.")) ]).
Proof. reflexivity. Qed.

Example analyze_repo_failures :
  map (fun service =>
         analyze_repo Ref.json_loads service (lit "Hello") [lit "main.py"])
    [ Sample.unreachable; Sample.no_choice; Sample.no_content;
      Sample.replies Sample.prose_reply; Sample.replies [] ]
  = repeat (Return fallback) 5.
Proof. reflexivity. Qed.

(** A reply that is valid JSON of another shape comes back as parsed. *)
Example analyze_repo_array_reply :
  analyze_repo Ref.json_loads (Sample.replies Sample.array_reply)
    (lit "Hello") [lit "main.py"]
  = Return (JArr []).
Proof. reflexivity. Qed.

(** Only what derives from [Exception] is caught. *)
Example analyze_repo_cancelled :
  analyze_repo Ref.json_loads
    (fun _ => Raise (BaseOnly (lit "asyncio.CancelledError")))
    (lit "Hello") [lit "main.py"]
  = Raise (BaseOnly (lit "asyncio.CancelledError")).
Proof. reflexivity. Qed.

Section Generator.

Variable json_loads : str -> outcome json.
Variable chat_create : chat_request -> outcome completion.
Variables (readme_text : str) (file_list : list str).

Local Abbreviation body := (try_body json_loads chat_create readme_text file_list).
Local Abbreviation analyze :=
  (analyze_repo json_loads chat_create readme_text file_list).

Lemma analyze_repo_caught (e : exn) :
  body = Raise e -> is_Exception e = true -> analyze = Return fallback.
Proof. unfold analyze_repo. intros -> ->. reflexivity. Qed.

Lemma analyze_repo_parsed (v : json) :
  body = Return v -> analyze = Return v.
Proof. unfold analyze_repo. now intros ->. Qed.

(** The errors that the program itself raises on a malformed completion
    derive from [Exception]. *)
Lemma first_content_error (r : completion) (e : exn) :
  first_content r = Raise e -> is_Exception e = true.
Proof.
  unfold first_content.
  destruct (choices r) as [|c cs]; [intros [= <-]; reflexivity|].
  destruct (message_content c); [discriminate | intros [= <-]; reflexivity].
Qed.

(** The body of the [try] ends with the result of one of its three
    steps. *)
Lemma try_body_cases :
  (exists e, chat_create (completion_request readme_text file_list) = Raise e
             /\ body = Raise e)
  \/ (exists r e, chat_create (completion_request readme_text file_list)
                  = Return r
                  /\ first_content r = Raise e /\ body = Raise e)
  \/ (exists r c, chat_create (completion_request readme_text file_list)
                  = Return r
                  /\ first_content r = Return c
                  /\ body = json_loads (clean c)).
Proof.
  unfold try_body.
  destruct (chat_create _) as [r|e]; simpl; [|left; now exists e].
  right. destruct (first_content r) as [c|e] eqn:F; simpl.
  - right. now exists r, c.
  - left. now exists r, e.
Qed.

End Generator.

(** C2. Whatever the inputs, an exception inside the generation stage is
    turned into the fallback object: a failure of the call to the model
    provider, a completion without a usable content, a decoding error of
    [json.loads]; and no exception deriving from [Exception] leaves
    [analyze_repo]. *)
Theorem C2_generation_errors_absorbed :
  forall json_loads chat_create (readme_text : str) (file_list : list str),
    let result := analyze_repo json_loads chat_create readme_text file_list in
    let request := completion_request readme_text file_list in
    (forall e,
        try_body json_loads chat_create readme_text file_list = Raise e ->
        is_Exception e = true -> result = Return fallback)
    /\ (forall e,
          chat_create request = Raise e -> is_Exception e = true ->
          result = Return fallback)
    /\ (forall r e,
          chat_create request = Return r -> first_content r = Raise e ->
          result = Return fallback)
    /\ (forall r c e,
          chat_create request = Return r -> first_content r = Return c ->
          json_loads (clean c) = Raise e -> is_Exception e = true ->
          result = Return fallback)
    /\ (forall e, result = Raise e -> is_Exception e = false).
Proof.
  intros json_loads chat_create readme_text file_list result request.
  subst result request.
  split; [|split; [|split; [|split]]].
  - apply analyze_repo_caught.
  - intros e C E. apply (analyze_repo_caught _ _ _ _ e); [|assumption].
    unfold try_body. now rewrite C.
  - intros r e C F. apply (analyze_repo_caught _ _ _ _ e).
    + unfold try_body. rewrite C. simpl. now rewrite F.
    + now apply first_content_error with r.
  - intros r c e C F J E. apply (analyze_repo_caught _ _ _ _ e); [|assumption].
    unfold try_body. rewrite C. simpl. rewrite F. simpl. exact J.
  - intros e. unfold analyze_repo.
    destruct (try_body json_loads chat_create readme_text file_list) as [v|e'];
      [discriminate|].
    destruct (is_Exception e') eqn:E; [discriminate|].
    now intros [= <-].
Qed.

Lemma C2_generation_errors_absorbed_witness :
  (Sample.replies Sample.prose_reply
     (completion_request (lit "Hello") [lit "main.py"])
   = Return {| choices := [ {| message_content := Some Sample.prose_reply |} ] |}
   /\ Ref.json_loads (clean Sample.prose_reply)
      = Raise (LibraryError (lit "json.JSONDecodeError")))
  /\ analyze_repo Ref.json_loads (Sample.replies Sample.prose_reply)
       (lit "Hello") [lit "main.py"]
     = Return fallback.
Proof.
  split; [split; reflexivity|].
  apply (proj1 (proj2 (proj2 (proj2
           (C2_generation_errors_absorbed Ref.json_loads
              (Sample.replies Sample.prose_reply) (lit "Hello")
              [lit "main.py"]))))
           {| choices := [ {| message_content := Some Sample.prose_reply |} ] |}
           Sample.prose_reply (LibraryError (lit "json.JSONDecodeError")));
    reflexivity.
Defined.

(** C6, as the specification states it, fails on a reply that is valid
    JSON of another shape: the parsed object is returned, and it does not
    have the three fields. *)
Lemma C6_counterexample :
  analyze_repo Ref.json_loads (Sample.replies Sample.other_shape_reply)
    (lit "Hello") [lit "main.py"]
  = Return (JObj [ (lit "error", JStr (lit "no readme"));
                   (lit "code", JInt 3) ])
  /\ has_three_fields (JObj [ (lit "error", JStr (lit "no readme"));
                              (lit "code", JInt 3) ]) = false
  /\ JObj [ (lit "error", JStr (lit "no readme")); (lit "code", JInt 3) ]
     <> fallback.
Proof. repeat split; try reflexivity. discriminate. Qed.

(** C6, amended. The value returned by [analyze_repo] is the fallback
    object, which is an analysis result of exactly the three fields, or
    the value that [json.loads] made of the cleaned reply, returned as it
    is, whatever its shape. *)
Theorem C6_parsed_value_returned_as_is :
  forall json_loads chat_create (readme_text : str) (file_list : list str),
    let result := analyze_repo json_loads chat_create readme_text file_list in
    let request := completion_request readme_text file_list in
    is_analysis_result fallback = true
    /\ (forall r c v,
          chat_create request = Return r -> first_content r = Return c ->
          json_loads (clean c) = Return v -> result = Return v)
    /\ (forall v,
          result = Return v ->
          v = fallback
          \/ exists r c,
               chat_create request = Return r /\ first_content r = Return c
               /\ json_loads (clean c) = Return v).
Proof.
  intros json_loads chat_create readme_text file_list result request.
  subst result request.
  split; [reflexivity|]. split.
  - intros r c v C F J. apply analyze_repo_parsed.
    unfold try_body. rewrite C. simpl. rewrite F. simpl. exact J.
  - intros v H.
    destruct (try_body_cases json_loads chat_create readme_text file_list)
      as [(e & C & B) | [(r & e & C & F & B) | (r & c & C & F & B)]];
      unfold analyze_repo in H; rewrite B in H.
    + destruct (is_Exception e); [left; congruence | discriminate].
    + destruct (is_Exception e); [left; congruence | discriminate].
    + destruct (json_loads (clean c)) as [v'|e] eqn:J.
      * right. exists r, c. repeat split; congruence.
      * destruct (is_Exception e); [left; congruence | discriminate].
Qed.

Lemma C6_parsed_value_returned_as_is_witness :
  (Sample.replies Sample.good_reply
     (completion_request (lit "Hello") [lit "main.py"])
   = Return {| choices := [ {| message_content := Some Sample.good_reply |} ] |}
   /\ Ref.json_loads (clean Sample.good_reply)
      = Return (JObj [ (lit "summary", JStr (lit "A widget library."));
                       (lit "technologies", JArr [JStr (lit "Python")]);
                       (lit "structure", JStr (lit "One module.")) ]))
  /\ analyze_repo Ref.json_loads (Sample.replies Sample.good_reply)
       (lit "Hello") [lit "main.py"]
     = Return (JObj [ (lit "summary", JStr (lit "A widget library."));
                      (lit "technologies", JArr [JStr (lit "Python")]);
                      (lit "structure", JStr (lit "One module.")) ]).
Proof.
  split; [split; reflexivity|].
  apply (proj1 (proj2
           (C6_parsed_value_returned_as_is Ref.json_loads
              (Sample.replies Sample.good_reply) (lit "Hello")
              [lit "main.py"]))
           {| choices := [ {| message_content := Some Sample.good_reply |} ] |}
           Sample.good_reply);
    reflexivity.
Defined.

(** ** The endpoint *)

(** The whole request of the specification's example: the files passed to
    the generator are [main.py] alone, and the fetch error of a rejected
    URL is the result of the endpoint. *)
Example summarize_repo_sample :
  run (summarize_repo Ref.str_lower Ref.b64decode Ref.utf8_decode Ref.json_loads
         Sample.token Sample.provider (Sample.replies Sample.good_reply)
         Sample.repo_url)
  = (Return (JObj [ (lit "summary", JStr (lit "A widget library."));
                    (lit "technologies", JArr [JStr (lit "Python")]);
                    (lit "structure", JStr (lit "One module.")) ]),
     [ tree_request Sample.token (lit "acme") (lit "widgets");
       readme_request Sample.token (lit "acme") (lit "widgets") ]).
Proof. reflexivity. Qed.

Example summarize_repo_rejected :
  run (summarize_repo Ref.str_lower Ref.b64decode Ref.utf8_decode Ref.json_loads
         Sample.token Sample.provider Sample.unreachable (lit "widgets"))
  = (Raise (HTTPException 400 (lit "Invalid GitHub URL")), []).
Proof. reflexivity. Qed.

(** ** The listing: further properties *)

Section Listing.

Variable str_lower : str -> str.

(** A comprehension that ends well went through entries that all carry a
    string name. *)
Lemma file_list_of_inv (elements : list json) (kept : list str) :
  file_list_of str_lower elements = Return kept ->
  exists names,
    map entry_name elements = map Some names
    /\ kept = filter (should_include_file str_lower) names.
Proof.
  revert kept; induction elements as [|f elements IH]; intros kept H.
  - injection H as <-. now exists [].
  - cbn [file_list_of] in H. cbn [map]. unfold entry_name at 1.
    destruct (subscript f (lit "name")) as [[| | | |filename| |]|e];
      cbn [bind] in H; try discriminate.
    destruct (should_include_file str_lower filename) eqn:I.
    + destruct (file_list_of str_lower elements) as [kept'|e];
        cbn [bind] in H; [|discriminate].
      injection H as <-. destruct (IH kept' eq_refl) as (names & M & K).
      exists (filename :: names). cbn [map filter]. rewrite I, M, K. now split.
    + destruct (IH kept H) as (names & M & K).
      exists (filename :: names). cbn [map filter]. rewrite I, M. now split.
Qed.

(** A comprehension that raises met an entry without a string name, and
    raises an error of shape. *)
Lemma file_list_of_raises (elements : list json) (e : exn) :
  file_list_of str_lower elements = Raise e ->
  shape_error e /\ exists f, In f elements /\ entry_name f = None.
Proof.
  induction elements as [|f elements IH]; intros H; [discriminate|].
  cbn [file_list_of] in H.
  assert (Hrest : file_list_of str_lower elements = Raise e ->
                  shape_error e
                  /\ exists g, In g (f :: elements) /\ entry_name g = None).
  { intros R. destruct (IH R) as (Sh & g & G & N).
    split; [assumption|]. exists g. split; [now right | assumption]. }
  assert (Hhere : entry_name f = None -> shape_error e ->
                  shape_error e
                  /\ exists g, In g (f :: elements) /\ entry_name g = None).
  { intros N Sh. split; [assumption|]. exists f. split; [now left | assumption]. }
  unfold entry_name in Hhere.
  destruct (subscript f (lit "name")) as [name|e'] eqn:S; cbn [bind] in H.
  - destruct name as [| | | |filename| |];
      try (injection H as <-; apply Hhere;
           [reflexivity | unfold shape_error; tauto]).
    destruct (should_include_file str_lower filename).
    + destruct (file_list_of str_lower elements) as [kept'|e''] eqn:R;
        cbn [bind] in H; [discriminate|].
      injection H as <-. now apply Hrest.
    + now apply Hrest.
  - injection H as <-. apply Hhere; [reflexivity|].
    unfold subscript in S. destruct f as [| | | | | |fields];
      try (injection S as <-; now left).
    destruct (dict_get fields (lit "name")); [discriminate|].
    injection S as <-. right. now left.
Qed.

Lemma file_list_of_total (elements : list json) :
  (exists kept, file_list_of str_lower elements = Return kept)
  \/ (exists e, file_list_of str_lower elements = Raise e).
Proof.
  destruct (file_list_of str_lower elements) as [kept|e];
    [left; now exists kept | right; now exists e].
Qed.

End Listing.

(** X3. The comprehension over the entries of a listing ends well exactly
    when every entry carries a string under [name], and then gives the
    filter of those names; one entry without such a name makes the whole
    comprehension raise a [TypeError], a [KeyError] or an
    [AttributeError], whatever the other entries are. *)
Theorem listing_needs_every_name :
  forall (str_lower : str -> str) (elements : list json),
    (forall kept,
        file_list_of str_lower elements = Return kept
        <-> exists names,
              map entry_name elements = map Some names
              /\ kept = filter (should_include_file str_lower) names)
    /\ ((exists e, file_list_of str_lower elements = Raise e)
        <-> exists f, In f elements /\ entry_name f = None)
    /\ (forall e, file_list_of str_lower elements = Raise e -> shape_error e).
Proof.
  intros str_lower elements. split; [|split].
  - intros kept. split.
    + apply file_list_of_inv.
    + intros (names & M & ->). now apply file_list_of_names.
  - split.
    + intros (e & H). now apply (file_list_of_raises str_lower elements e).
    + intros (f & Hin & N).
      destruct (file_list_of_total str_lower elements) as [(kept & K) | H];
        [|assumption].
      exfalso. destruct (file_list_of_inv str_lower _ _ K) as (names & M & _).
      assert (In (entry_name f) (map entry_name elements)) as Hf
        by now apply in_map.
      rewrite M, N in Hf. apply in_map_iff in Hf as (n & E & _). discriminate.
  - intros e H. now apply (file_list_of_raises str_lower elements e).
Qed.

(** X17. A listing answered with 200 whose body is not a JSON array: an
    empty object and an empty string give the empty file list, every other
    value raises a [TypeError]; an array goes through the comprehension. *)
Theorem listing_body_shapes :
  forall (str_lower : str -> str) (body : json),
    file_list_of_response str_lower
      {| status_code := 200; json_body := Return body |}
    = match body with
      | JArr items => file_list_of str_lower items
      | JObj [] => Return []
      | JStr [] => Return []
      | _ => Raise TypeError
      end.
Proof.
  intros str_lower body. unfold file_list_of_response. simpl.
  destruct body as [| | | |[|c s]|items|[|[k v] fields]]; reflexivity.
Qed.

(** ** The fetcher: further properties *)

Section FetcherMore.

Variable str_lower : str -> str.
Variable b64decode : str -> outcome (list N).
Variable utf8_decode : list N -> outcome str.
Variable GITHUB_TOKEN : option str.
Variable http_get : request -> outcome response.

Local Abbreviation fetch :=
  (get_repo_data str_lower b64decode utf8_decode GITHUB_TOKEN http_get).

Lemma tree_request_well_formed (owner repo_name : str) :
  well_formed_request GITHUB_TOKEN (tree_request GITHUB_TOKEN owner repo_name).
Proof. repeat split. Qed.

Lemma readme_request_well_formed (owner repo_name : str) :
  well_formed_request GITHUB_TOKEN
    (readme_request GITHUB_TOKEN owner repo_name).
Proof. repeat split. Qed.

(** The three shapes of a call: rejected, stopped at the listing, or gone
    through both requests. *)
Lemma fetch_shapes (repo_url : str) :
  (exists e, parse_repo_url repo_url = Raise e
             /\ run (fetch repo_url) = (Raise e, []))
  \/ exists owner repo_name,
       parse_repo_url repo_url = Return (owner, repo_name)
       /\ ((exists e,
              run (fetch repo_url)
              = (Raise e, [tree_request GITHUB_TOKEN owner repo_name]))
           \/ (exists result,
                 run (fetch repo_url)
                 = (result,
                    [ tree_request GITHUB_TOKEN owner repo_name;
                      readme_request GITHUB_TOKEN owner repo_name ]))).
Proof.
  destruct (parse_repo_url_cases repo_url) as [[_ E] | (pre & a & b & _ & P)].
  - left. eexists. split; [exact E | now apply fetch_rejected].
  - right. exists a, b. split; [assumption|].
    rewrite (fetch_accepted str_lower b64decode utf8_decode GITHUB_TOKEN
               http_get repo_url a b P).
    destruct (http_get (tree_request _ _ _)) as [tree_resp|e];
      [|left; now exists e].
    destruct (file_list_of_response str_lower tree_resp) as [file_list|e];
      [|left; now exists e].
    right. destruct (http_get (readme_request _ _ _)); now eexists.
Qed.

End FetcherMore.

(** X1. Whatever the URL, the token and the provider, a call makes no
    request (the URL is rejected), the listing request alone (and then
    ends in an error), or the listing request followed by the readme
    request, never more and never in another order; a call that returns a
    value has made both; and every request carries the same header dict,
    with the versioned media type under [Accept], to a URL of the
    provider's [repos] API. *)
Theorem fetch_request_discipline :
  forall str_lower b64decode utf8_decode GITHUB_TOKEN http_get repo_url,
    let result :=
      fst (run (get_repo_data str_lower b64decode utf8_decode GITHUB_TOKEN
                  http_get repo_url)) in
    let log :=
      snd (run (get_repo_data str_lower b64decode utf8_decode GITHUB_TOKEN
                  http_get repo_url)) in
    ((log = [] /\ exists e, parse_repo_url repo_url = Raise e /\ result = Raise e)
     \/ exists owner repo_name,
          parse_repo_url repo_url = Return (owner, repo_name)
          /\ ((log = [tree_request GITHUB_TOKEN owner repo_name]
               /\ exists e, result = Raise e)
              \/ log = [ tree_request GITHUB_TOKEN owner repo_name;
                         readme_request GITHUB_TOKEN owner repo_name ]))
    /\ (forall v, result = Return v -> length log = 2%nat)
    /\ Forall (well_formed_request GITHUB_TOKEN) log.
Proof.
  intros str_lower b64decode utf8_decode GITHUB_TOKEN http_get repo_url
    result log.
  subst result log.
  destruct (fetch_shapes str_lower b64decode utf8_decode GITHUB_TOKEN http_get
              repo_url)
    as [(e & P & R) | (owner & repo_name & P & [(e & R) | (result & R)])];
    rewrite R; simpl fst; simpl snd.
  - split; [|split].
    + left. split; [reflexivity | now exists e].
    + discriminate.
    + constructor.
  - split; [|split].
    + right. exists owner, repo_name. split; [assumption|]. left.
      split; [reflexivity | now exists e].
    + discriminate.
    + repeat constructor.
  - split; [|split].
    + right. exists owner, repo_name. split; [assumption|]. now right.
    + reflexivity.
    + repeat constructor.
Qed.

(** X2. Unlike a listing answered with another status, a listing request
    that raises, and a listing answered with 200 whose body cannot be
    turned into a file list, end the call with that error; the readme
    request is not made. *)
Theorem listing_error_aborts :
  forall str_lower b64decode utf8_decode GITHUB_TOKEN http_get
         repo_url owner repo_name e,
    parse_repo_url repo_url = Return (owner, repo_name) ->
    (http_get (tree_request GITHUB_TOKEN owner repo_name) = Raise e
     \/ exists tree_resp,
          http_get (tree_request GITHUB_TOKEN owner repo_name) = Return tree_resp
          /\ file_list_of_response str_lower tree_resp = Raise e) ->
    run (get_repo_data str_lower b64decode utf8_decode GITHUB_TOKEN http_get
           repo_url)
    = (Raise e, [tree_request GITHUB_TOKEN owner repo_name]).
Proof.
  intros str_lower b64decode utf8_decode GITHUB_TOKEN http_get repo_url owner
    repo_name e P H.
  rewrite (fetch_accepted str_lower b64decode utf8_decode GITHUB_TOKEN http_get
             repo_url owner repo_name P).
  destruct H as [T | (tree_resp & T & F)]; rewrite T; [reflexivity|].
  now rewrite F.
Qed.

Lemma listing_error_aborts_witness :
  (parse_repo_url Sample.repo_url = Return (lit "acme", lit "widgets")
   /\ Probe.provider_listing (JArr Probe.nameless_listing)
        (tree_request Sample.token (lit "acme") (lit "widgets"))
      = Return {| status_code := 200;
                  json_body := Return (JArr Probe.nameless_listing) |}
   /\ file_list_of_response Ref.str_lower
        {| status_code := 200;
           json_body := Return (JArr Probe.nameless_listing) |}
      = Raise KeyError)
  /\ run (get_repo_data Ref.str_lower Ref.b64decode Ref.utf8_decode Sample.token
            (Probe.provider_listing (JArr Probe.nameless_listing))
            Sample.repo_url)
     = (Raise KeyError, [tree_request Sample.token (lit "acme") (lit "widgets")]).
Proof.
  split; [split; [reflexivity | split; reflexivity]|].
  apply (listing_error_aborts Ref.str_lower Ref.b64decode Ref.utf8_decode
           Sample.token (Probe.provider_listing (JArr Probe.nameless_listing))
           Sample.repo_url (lit "acme") (lit "widgets") KeyError eq_refl).
  right.
  exists {| status_code := 200;
            json_body := Return (JArr Probe.nameless_listing) |}.
  split; reflexivity.
Defined.

(** X4. Whatever the provider sends, the file list that a call returns
    holds only names that pass the filter: none starts with a dot, and
    none has an extension of the ignored set in lower case. *)
Theorem fetched_files_pass_filter :
  forall str_lower b64decode utf8_decode GITHUB_TOKEN http_get
         repo_url readme_content file_list,
    fst (run (get_repo_data str_lower b64decode utf8_decode GITHUB_TOKEN
                http_get repo_url))
    = Return (readme_content, file_list) ->
    Forall (fun name =>
              should_include_file str_lower name = true
              /\ startswith name (lit ".") = false
              /\ str_in (str_lower (snd (splitext name))) ignored_extensions
                 = false)
      file_list.
Proof.
  intros str_lower b64decode utf8_decode GITHUB_TOKEN http_get repo_url
    readme_content file_list H.
  assert (F : Forall (fun name => should_include_file str_lower name = true)
                file_list).
  { destruct (parse_repo_url_cases repo_url)
      as [[_ E] | (pre & a & b & _ & P)].
    - rewrite (fetch_rejected str_lower b64decode utf8_decode GITHUB_TOKEN
                 http_get repo_url _ E) in H. discriminate.
    - rewrite (fetch_accepted str_lower b64decode utf8_decode GITHUB_TOKEN
                 http_get repo_url a b P) in H.
      destruct (http_get (tree_request _ _ _)) as [tree_resp|e];
        [|discriminate].
      destruct (file_list_of_response str_lower tree_resp) as [files|e] eqn:L;
        [|discriminate].
      destruct (http_get (readme_request _ _ _)) as [readme_resp|e];
        [|discriminate].
      simpl in H.
      destruct (readme_content_of_response _ _ readme_resp); [|discriminate].
      injection H as _ <-.
      unfold file_list_of_response in L.
      destruct (status_code tree_resp =? 200); [|injection L as <-; constructor].
      destruct (json_body tree_resp) as [all_files|e]; [|discriminate].
      simpl in L. destruct (iterate all_files) as [elements|e]; [|discriminate].
      simpl in L. destruct (file_list_of_inv str_lower _ _ L) as (names & _ & ->).
      apply Forall_forall. intros name Hin. now apply filter_In in Hin. }
  apply Forall_forall. intros name Hin.
  pose proof (proj1 (Forall_forall _ _) F name Hin) as I.
  split; [assumption|]. unfold should_include_file in I.
  destruct (startswith name (lit ".")); [discriminate|].
  split; [reflexivity|]. now apply negb_true_iff.
Qed.

Lemma fetched_files_pass_filter_witness :
  fst (run (get_repo_data Ref.str_lower Ref.b64decode Ref.utf8_decode
              Sample.token Sample.provider Sample.repo_url))
  = Return (lit "Hello", [lit "main.py"])
  /\ Forall (fun name =>
               should_include_file Ref.str_lower name = true
               /\ startswith name (lit ".") = false
               /\ str_in (Ref.str_lower (snd (splitext name))) ignored_extensions
                  = false)
       [lit "main.py"].
Proof.
  split; [reflexivity|].
  apply (fetched_files_pass_filter Ref.str_lower Ref.b64decode Ref.utf8_decode
           Sample.token Sample.provider Sample.repo_url (lit "Hello")).
  reflexivity.
Defined.

(** X5. The readme step ends well in two ways only: on 404, with the
    placeholder text, and on 200, when the body is an object whose
    [content] is a string that decodes from base64 and then from UTF-8;
    a 200 without such a content at no point falls back to a default
    text. *)
Theorem readme_text_origin :
  forall b64decode utf8_decode readme_resp text,
    readme_content_of_response b64decode utf8_decode readme_resp = Return text ->
    (status_code readme_resp = 404 /\ text = lit "No README found.")
    \/ (status_code readme_resp = 200
        /\ exists data encoded raw,
             json_body readme_resp = Return data
             /\ subscript data (lit "content") = Return (JStr encoded)
             /\ b64decode encoded = Return raw
             /\ utf8_decode raw = Return text).
Proof.
  intros b64decode utf8_decode readme_resp text H.
  unfold readme_content_of_response in H.
  destruct (Z.eqb_spec (status_code readme_resp) 200) as [S2|S2].
  - right. split; [assumption|].
    destruct (json_body readme_resp) as [data|e] eqn:J; [|discriminate].
    cbn [bind] in H.
    destruct (subscript data (lit "content")) as [encoded|e] eqn:C;
      [|discriminate].
    cbn [bind] in H.
    destruct encoded as [| | | |encoded| |]; try discriminate.
    cbn [b64decode_value] in H.
    destruct (b64decode encoded) as [raw|e] eqn:B; [|discriminate].
    cbn [bind] in H. exists data, encoded, raw. repeat split; assumption.
  - destruct (Z.eqb_spec (status_code readme_resp) 404) as [S4|S4];
      [|discriminate].
    left. split; [assumption | congruence].
Qed.

Lemma readme_text_origin_witness :
  readme_content_of_response Ref.b64decode Ref.utf8_decode
    {| status_code := 200; json_body := Return Sample.readme_document |}
  = Return (lit "Hello")
  /\ ((200 = 404 /\ lit "Hello" = lit "No README found.")
      \/ (200 = 200
          /\ exists data encoded raw,
               Return Sample.readme_document = Return data
               /\ subscript data (lit "content") = Return (JStr encoded)
               /\ Ref.b64decode encoded = Return raw
               /\ Ref.utf8_decode raw = Return (lit "Hello"))).
Proof.
  split; [reflexivity|].
  apply (readme_text_origin Ref.b64decode Ref.utf8_decode
           {| status_code := 200; json_body := Return Sample.readme_document |}
           (lit "Hello")).
  reflexivity.
Defined.

(** ** The repository URL: further properties *)

Lemma rstrip_snoc (s : str) (c : char) : rstrip (s ++ [c]) c = rstrip s c.
Proof.
  induction s as [|x s IH]; simpl.
  - now rewrite (proj2 (char_eqb_eq c c) eq_refl).
  - now rewrite IH.
Qed.

Lemma rstrip_trailing (s : str) (c : char) (n : nat) :
  rstrip (s ++ repeat c n) c = rstrip s c.
Proof.
  revert s; induction n as [|n IH]; intros s; simpl.
  - now rewrite app_nil_r.
  - change (c :: repeat c n) with ([c] ++ repeat c n).
    now rewrite app_assoc, IH, rstrip_snoc.
Qed.

(** A text that does not end with the character is left as it is. *)
Lemma rstrip_kept (s : str) (x c : char) :
  x <> c -> rstrip (s ++ [x]) c = s ++ [x].
Proof.
  intros Hx. induction s as [|y s IH]; simpl.
  - destruct (char_eqb x c) eqn:E; [apply char_eqb_eq in E; contradiction|].
    reflexivity.
  - rewrite IH. destruct s; reflexivity.
Qed.

Lemma split_not_nil (s : str) (c : char) : split s c <> [].
Proof.
  intros H. pose proof (split_length s c) as L. rewrite H in L. discriminate.
Qed.

Lemma split_app_sep (a b : str) (c : char) :
  split (a ++ c :: b) c = split a c ++ split b c.
Proof.
  induction a as [|x a IH]; simpl.
  - now rewrite (proj2 (char_eqb_eq c c) eq_refl).
  - rewrite IH. destruct (char_eqb x c); [reflexivity|].
    pose proof (split_not_nil a c).
    destruct (split a c); [contradiction | reflexivity].
Qed.

Lemma split_no_sep (s : str) (c : char) : ~ In c s -> split s c = [s].
Proof.
  induction s as [|x s IH]; intros H; simpl; [reflexivity|].
  destruct (char_eqb x c) eqn:E.
  - apply char_eqb_eq in E. exfalso. apply H. now left.
  - rewrite IH; [reflexivity|]. intros Hin. apply H. now right.
Qed.

(** X7. Slashes appended to a URL change nothing: the call parses the
    same pair, or rejects alike, and so makes the same requests and ends
    the same way. *)
Theorem trailing_slashes_ignored :
  forall str_lower b64decode utf8_decode GITHUB_TOKEN http_get
         (repo_url : str) (n : nat),
    parse_repo_url (repo_url ++ repeat sep n) = parse_repo_url repo_url
    /\ run (get_repo_data str_lower b64decode utf8_decode GITHUB_TOKEN http_get
              (repo_url ++ repeat sep n))
       = run (get_repo_data str_lower b64decode utf8_decode GITHUB_TOKEN
                http_get repo_url).
Proof.
  intros str_lower b64decode utf8_decode GITHUB_TOKEN http_get repo_url n.
  assert (P : parse_repo_url (repo_url ++ repeat sep n)
              = parse_repo_url repo_url).
  { unfold parse_repo_url. now rewrite rstrip_trailing. }
  split; [exact P|].
  unfold run, get_repo_data, io_bind, io_lift. now rewrite P.
Qed.

(** X6. Only the last two segments of a URL are read: for every text
    before them, whatever the scheme and the host, a URL that ends in a
    slash, an owner, a slash, and a non-empty repository name, neither
    holding a slash, then any number of slashes, gives that owner and that
    name. *)
Theorem url_round_trip :
  forall (prefix owner repo_name : str) (n : nat),
    ~ In sep owner -> ~ In sep repo_name -> repo_name <> [] ->
    parse_repo_url
      (prefix ++ sep :: owner ++ sep :: repo_name ++ repeat sep n)
    = Return (owner, repo_name).
Proof.
  intros prefix owner repo_name n Ho Hr Hne.
  apply parse_repo_url_last_two with (pre := split prefix sep).
  replace (prefix ++ sep :: owner ++ sep :: repo_name ++ repeat sep n)
    with ((prefix ++ sep :: owner ++ sep :: repo_name) ++ repeat sep n)
    by (rewrite <- !app_assoc; simpl; now rewrite <- app_assoc).
  rewrite rstrip_trailing.
  destruct (exists_last Hne) as (r & x & ->).
  assert (Hx : x <> sep).
  { intros ->. apply Hr. apply in_or_app. right. now left. }
  replace (prefix ++ sep :: owner ++ sep :: r ++ [x])
    with ((prefix ++ sep :: owner ++ sep :: r) ++ [x])
    by (rewrite <- !app_assoc; simpl; now rewrite <- app_assoc).
  rewrite (rstrip_kept _ x sep Hx).
  replace ((prefix ++ sep :: owner ++ sep :: r) ++ [x])
    with (prefix ++ sep :: owner ++ sep :: r ++ [x])
    by (rewrite <- !app_assoc; simpl; now rewrite <- app_assoc).
  rewrite !split_app_sep, (split_no_sep owner sep Ho),
    (split_no_sep (r ++ [x]) sep Hr).
  reflexivity.
Qed.

Lemma url_round_trip_witness :
  (~ In sep (lit "acme") /\ ~ In sep (lit "widgets.git") /\ lit "widgets.git" <> [])
  /\ parse_repo_url (lit "ftp://example.org/mirror/acme/widgets.git//")
     = Return (lit "acme", lit "widgets.git").
Proof.
  assert (Ho : ~ In sep (lit "acme")) by (cbv; intuition discriminate).
  assert (Hr : ~ In sep (lit "widgets.git")) by (cbv; intuition discriminate).
  assert (Hne : lit "widgets.git" <> []) by discriminate.
  split; [split; [exact Ho | split; [exact Hr | exact Hne]]|].
  exact (url_round_trip (lit "ftp://example.org/mirror") (lit "acme")
           (lit "widgets.git") 2 Ho Hr Hne).
Defined.

(** ** The filename filter: further properties *)

Lemma rfind_from_last (c : char) (a b : str) (i found : Z) :
  ~ In c b ->
  rfind_from c (a ++ c :: b) i found = i + Z.of_nat (length a).
Proof.
  intros Hb. revert i found; induction a as [|x a IH]; intros i found.
  - simpl. rewrite (proj2 (char_eqb_eq c c) eq_refl).
    rewrite (rfind_from_absent c b (i + 1) i Hb). lia.
  - simpl app. cbn [rfind_from]. rewrite IH. simpl length. lia.
Qed.

Lemma firstn_length_app {A : Type} (a b : list A) :
  firstn (length a) (a ++ b) = a.
Proof. induction a as [|x a IH]; simpl; [now destruct b | now rewrite IH]. Qed.

Lemma skipn_length_app {A : Type} (a b : list A) :
  skipn (length a) (a ++ b) = b.
Proof. induction a as [|x a IH]; simpl; [reflexivity | exact IH]. Qed.

(** X8. Only the last extension of a file name counts: for a plain stem
    (not empty, no leading dot, no slash) followed by a dot and a text
    without dot or slash, [os.path.splitext] gives the stem and the dot
    with that text, and the file is included exactly when that extension
    in lower case is not in the ignored set, whatever dots the stem
    holds. *)
Theorem last_extension_decides :
  forall (str_lower : str -> str) (stem e : str),
    stem <> [] -> startswith stem (lit ".") = false ->
    ~ In sep stem -> ~ In sep e -> ~ In extsep e ->
    splitext (stem ++ extsep :: e) = (stem, extsep :: e)
    /\ should_include_file str_lower (stem ++ extsep :: e)
       = negb (str_in (str_lower (extsep :: e)) ignored_extensions).
Proof.
  intros str_lower stem e Hne Hdot Hs He Hd.
  assert (Hdot' : startswith (stem ++ extsep :: e) (lit ".") = false).
  { destruct stem as [|x stem]; [contradiction | exact Hdot]. }
  assert (Hsep : ~ In sep (stem ++ extsep :: e)).
  { intros Hin. apply in_app_or in Hin as [Hin | [Hin | Hin]];
      [now apply Hs | discriminate | now apply He]. }
  assert (Hin : In extsep (stem ++ extsep :: e)).
  { apply in_or_app. right. now left. }
  destruct (splitext_plain_name _ Hsep Hdot' Hin) as [_ E].
  assert (R : rfind (stem ++ extsep :: e) extsep = Z.of_nat (length stem)).
  { unfold rfind. rewrite (rfind_from_last extsep stem e 0 (-1) Hd). lia. }
  assert (S : splitext (stem ++ extsep :: e) = (stem, extsep :: e)).
  { rewrite E, R. unfold slice_to, slice_from. rewrite Nat2Z.id.
    now rewrite firstn_length_app, skipn_length_app. }
  split; [exact S|].
  unfold should_include_file. now rewrite Hdot', S.
Qed.

Lemma last_extension_decides_witness :
  (lit "archive.tar" <> [] /\ startswith (lit "archive.tar") (lit ".") = false
   /\ ~ In sep (lit "archive.tar") /\ ~ In sep (lit "PNG")
   /\ ~ In extsep (lit "PNG"))
  /\ splitext (lit "archive.tar.PNG") = (lit "archive.tar", lit ".PNG")
  /\ should_include_file Ref.str_lower (lit "archive.tar.PNG") = false.
Proof.
  assert (Hne : lit "archive.tar" <> []) by discriminate.
  assert (Hs : ~ In sep (lit "archive.tar")) by (cbv; intuition discriminate).
  assert (He : ~ In sep (lit "PNG")) by (cbv; intuition discriminate).
  assert (Hd : ~ In extsep (lit "PNG")) by (cbv; intuition discriminate).
  split;
    [split; [exact Hne | split; [reflexivity | split; [exact Hs | split;
       [exact He | exact Hd]]]]|].
  exact (last_extension_decides Ref.str_lower (lit "archive.tar") (lit "PNG")
           Hne eq_refl Hs He Hd).
Defined.

(** ** The generator: further properties *)

Lemma replace_from_skip (old new : str) (k : nat) (s : str) :
  replace_from old new k s = replace_from old new O (skipn k s).
Proof.
  revert k; induction s as [|x s IH]; intros [|k]; try reflexivity.
  cbn [replace_from skipn]. apply IH.
Qed.

(** An occurrence at the head is replaced, and the scan goes on after
    it. *)
Lemma replace_from_hit (old new rest : str) :
  old <> [] ->
  startswith (old ++ rest) old = true ->
  replace_from old new O (old ++ rest) = new ++ replace_from old new O rest.
Proof.
  intros Hne H. destruct old as [|o old]; [contradiction|].
  cbn [app replace_from]. change (o :: old ++ rest) with ((o :: old) ++ rest).
  rewrite H. cbn [length Nat.pred]. rewrite replace_from_skip.
  now rewrite skipn_length_app.
Qed.

Lemma startswith_app (p rest : str) : startswith (p ++ rest) p = true.
Proof.
  induction p as [|c p IH]; [reflexivity|]. simpl.
  now rewrite (proj2 (char_eqb_eq c c) eq_refl), IH.
Qed.

(** A stretch without the first character of the pattern is copied. *)
Lemma replace_from_miss (o : char) (old new s t : str) :
  ~ In o s ->
  replace_from (o :: old) new O (s ++ t)
  = s ++ replace_from (o :: old) new O t.
Proof.
  intros H. induction s as [|x s IH]; [reflexivity|].
  cbn [app replace_from startswith].
  destruct (char_eqb x o) eqn:E.
  - apply char_eqb_eq in E. exfalso. apply H. now left.
  - cbn [andb]. rewrite IH; [reflexivity|]. intros Hin. apply H. now right.
Qed.

Lemma rstrip_space_snoc (s : str) (c : char) :
  isspace c = true -> rstrip_space (s ++ [c]) = rstrip_space s.
Proof.
  intros H. induction s as [|x s IH]; simpl.
  - now rewrite H.
  - now rewrite IH.
Qed.

Lemma strip_snoc (s : str) (c : char) :
  isspace c = true -> strip (s ++ [c]) = strip s.
Proof.
  intros H. unfold strip. induction s as [|x s IH]; simpl.
  - now rewrite H.
  - destruct (isspace x); [exact IH|].
    change (x :: s ++ [c]) with ((x :: s) ++ [c]).
    now apply rstrip_space_snoc.
Qed.

Lemma strip_cons (s : str) (c : char) :
  isspace c = true -> strip (c :: s) = strip s.
Proof. intros H. unfold strip. simpl. now rewrite H. Qed.

Lemma replace_plain (o : char) (old new s : str) :
  ~ In o s -> replace s (o :: old) new = s.
Proof.
  intros H. unfold replace. rewrite <- (app_nil_r s) at 1.
  rewrite (replace_from_miss o old new s [] H). simpl. apply app_nil_r.
Qed.

(** A text without backtick is only trimmed. *)
Lemma clean_plain (text : str) : ~ In backtick text -> clean text = strip text.
Proof.
  intros H. unfold clean.
  change (fence ++ lit "json")
    with (backtick :: [backtick; backtick] ++ lit "json").
  rewrite (replace_plain backtick _ [] text H).
  change fence with (backtick :: [backtick; backtick]).
  now rewrite (replace_plain backtick _ [] text H).
Qed.

(** The two replacements on a text without backtick followed by a
    fence. *)
Lemma replace_closing_fence (s : str) :
  ~ In backtick s ->
  replace (replace (s ++ fence) (fence ++ lit "json") []) fence [] = s.
Proof.
  intros H.
  assert (R1 : replace (s ++ fence) (fence ++ lit "json") [] = s ++ fence).
  { unfold replace.
    change (fence ++ lit "json")
      with (backtick :: [backtick; backtick] ++ lit "json").
    now rewrite (replace_from_miss backtick _ [] s fence H). }
  rewrite R1. unfold replace.
  change (replace_from fence [] O (s ++ fence))
    with (replace_from (backtick :: [backtick; backtick]) [] O (s ++ fence)).
  rewrite (replace_from_miss backtick _ [] s fence H).
  change (replace_from (backtick :: [backtick; backtick]) [] O fence)
    with (@nil char).
  apply app_nil_r.
Qed.

Lemma clean_wrapped (text : str) :
  ~ In backtick text ->
  clean (fenced_json text) = strip text /\ clean (fenced text) = strip text.
Proof.
  intros H.
  assert (Hnl : isspace 10%N = true) by reflexivity.
  assert (Hin : ~ In backtick (nl ++ text ++ nl)).
  { intros Hin. apply in_app_or in Hin as [[Hin | []] | Hin];
      [discriminate|].
    apply in_app_or in Hin as [Hin | [Hin | []]];
      [now apply H | discriminate]. }
  assert (Trim : strip (nl ++ text ++ nl) = strip text).
  { unfold nl at 1. cbn [app]. rewrite (strip_cons _ 10%N Hnl).
    now apply strip_snoc. }
  split.
  - unfold clean, fenced_json.
    replace (fence ++ lit "json" ++ nl ++ text ++ nl ++ fence)
      with ((fence ++ lit "json") ++ (nl ++ text ++ nl) ++ fence)
      by (now rewrite <- !app_assoc).
    unfold replace at 2.
    rewrite replace_from_hit; [|discriminate | apply startswith_app].
    cbn [app]. fold (replace ((nl ++ text ++ nl) ++ fence) (fence ++ lit "json") []).
    now rewrite (replace_closing_fence _ Hin).
  - unfold clean, fenced.
    assert (Head : forall rest,
               replace (fence ++ nl ++ rest) (fence ++ lit "json") []
               = fence ++ nl ++ replace rest (fence ++ lit "json") [])
      by reflexivity.
    rewrite Head.
    assert (Head2 : forall rest,
               replace (fence ++ nl ++ rest) fence [] = nl ++ replace rest fence [])
      by reflexivity.
    rewrite Head2.
    replace (text ++ nl ++ fence) with ((text ++ nl) ++ fence)
      by (now rewrite <- app_assoc).
    rewrite replace_closing_fence.
    + exact Trim.
    + intros I. apply Hin. now right.
Qed.

(** X9. A reply wrapped in a fence, with the language tag or without it,
    is read as the bare reply: for a text without backtick, the three
    forms are cleaned to the same text, the reply trimmed of its
    whitespace, so [analyze_repo] returns the same value for the three. *)
Theorem fences_unwrapped :
  forall (json_loads : str -> outcome json) (readme_text : str)
         (file_list : list str) (text : str),
    ~ In backtick text ->
    clean (fenced_json text) = strip text
    /\ clean (fenced text) = strip text
    /\ clean text = strip text
    /\ analyze_repo json_loads (Sample.replies (fenced_json text))
         readme_text file_list
       = analyze_repo json_loads (Sample.replies text) readme_text file_list
    /\ analyze_repo json_loads (Sample.replies (fenced text))
         readme_text file_list
       = analyze_repo json_loads (Sample.replies text) readme_text file_list.
Proof.
  intros json_loads readme_text file_list text H.
  destruct (clean_wrapped text H) as [W1 W2].
  pose proof (clean_plain text H) as W3.
  split; [exact W1|]. split; [exact W2|]. split; [exact W3|].
  unfold analyze_repo, try_body, Sample.replies, first_content.
  cbn [bind choices message_content]. rewrite W1, W2, W3. now split.
Qed.

Lemma fences_unwrapped_witness :
  ~ In backtick (lit "[]")
  /\ clean (fenced_json (lit "[]")) = lit "[]"
  /\ analyze_repo Ref.json_loads (Sample.replies (fenced_json (lit "[]")))
       (lit "Hello") [lit "main.py"]
     = analyze_repo Ref.json_loads (Sample.replies (lit "[]"))
         (lit "Hello") [lit "main.py"].
Proof.
  assert (H : ~ In backtick (lit "[]")) by (cbv; intuition discriminate).
  split; [exact H|].
  destruct (fences_unwrapped Ref.json_loads (lit "Hello") [lit "main.py"]
              (lit "[]") H) as (W1 & _ & _ & A1 & _).
  split; [exact W1 | exact A1].
Defined.

(** The scan for fences on a text that does not start with one or with
    two backticks. *)
Lemma unfence_cons (x : char) (s : str) :
  startswith (x :: s) fence = false ->
  replace_from fence [] O (x :: s) = x :: replace_from fence [] O s.
Proof. intros H. cbn [replace_from]. now rewrite H. Qed.

Lemma unfence_fence (s : str) :
  replace_from fence [] O (backtick :: backtick :: backtick :: s)
  = replace_from fence [] O s.
Proof. reflexivity. Qed.

Lemma startswith_fence_cons (x : char) (s : str) :
  startswith (x :: s) fence
  = char_eqb x backtick && startswith s [backtick; backtick].
Proof. reflexivity. Qed.

Lemma unfence_one (s : str) :
  startswith s [backtick] = false ->
  startswith (replace_from fence [] O s) [backtick] = false.
Proof.
  destruct s as [|x s]; [reflexivity|]. intros H.
  rewrite unfence_cons.
  - exact H.
  - rewrite startswith_fence_cons. simpl in H. rewrite andb_true_r in H.
    now rewrite H.
Qed.

Lemma unfence_two (s : str) :
  startswith s [backtick; backtick] = false ->
  startswith (replace_from fence [] O s) [backtick; backtick] = false.
Proof.
  destruct s as [|x s]; [reflexivity|]. intros H.
  assert (F : startswith (x :: s) fence = false).
  { rewrite startswith_fence_cons. cbn [startswith] in H.
    destruct (char_eqb x backtick); [|reflexivity]. cbn [andb] in *.
    destruct s as [|y s]; [reflexivity|]. cbn [startswith] in *.
    destruct (char_eqb y backtick); [discriminate | reflexivity]. }
  rewrite (unfence_cons x s F). cbn [startswith] in *.
  destruct (char_eqb x backtick); [|reflexivity]. cbn [andb] in *.
  change (startswith s [backtick] = false) in H.
  exact (unfence_one s H).
Qed.

Lemma unfence_bounded (n : nat) :
  forall s, (length s <= n)%nat ->
            has_fence (replace_from fence [] O s) = false.
Proof.
  induction n as [|n IH]; intros s L.
  - destruct s; [reflexivity | simpl in L; lia].
  - destruct s as [|x s]; [reflexivity|].
    destruct (startswith (x :: s) fence) eqn:F.
    + rewrite startswith_fence_cons in F.
      apply andb_true_iff in F as [Fx F]. apply char_eqb_eq in Fx. subst x.
      destruct s as [|y s]; [discriminate|]. cbn [startswith] in F.
      apply andb_true_iff in F as [Fy F]. apply char_eqb_eq in Fy. subst y.
      destruct s as [|z s]; [discriminate|].
      apply andb_true_iff in F as [Fz _]. apply char_eqb_eq in Fz. subst z.
      rewrite unfence_fence. apply IH. simpl in L. lia.
    + rewrite (unfence_cons x s F). cbn [has_fence].
      rewrite (IH s) by (simpl in L; lia). rewrite orb_false_r.
      rewrite startswith_fence_cons in F |- *.
      destruct (char_eqb x backtick); [|reflexivity]. cbn [andb] in *.
      now apply unfence_two.
Qed.

Lemma startswith_prefix (a b p : str) :
  startswith a p = true -> startswith (a ++ b) p = true.
Proof.
  revert a; induction p as [|c p IH]; intros a H; [reflexivity|].
  destruct a as [|x a]; [discriminate|]. simpl in *.
  apply andb_true_iff in H as [H1 H2]. now rewrite H1, IH.
Qed.

Lemma has_fence_prefix (a b : str) :
  has_fence (a ++ b) = false -> has_fence a = false.
Proof.
  induction a as [|x a IH]; [reflexivity|]. cbn [app has_fence].
  intros H. apply orb_false_iff in H as [H1 H2].
  rewrite (IH H2), orb_false_r.
  destruct (startswith (x :: a) fence) eqn:S; [|reflexivity].
  change (x :: a ++ b) with ((x :: a) ++ b) in H1.
  now rewrite (startswith_prefix _ b _ S) in H1.
Qed.

Lemma has_fence_suffix (a b : str) :
  has_fence (a ++ b) = false -> has_fence b = false.
Proof.
  induction a as [|x a IH]; [trivial|]. cbn [app has_fence].
  intros H. apply orb_false_iff in H as [_ H2]. now apply IH.
Qed.

Lemma has_fence_occurrence (a b : str) : has_fence (a ++ fence ++ b) = true.
Proof.
  induction a as [|x a IH]; [reflexivity|].
  cbn [app has_fence]. rewrite IH. apply orb_true_r.
Qed.

Lemma lstrip_space_suffix (s : str) : exists a, s = a ++ lstrip_space s.
Proof.
  induction s as [|x s [a IH]]; [now exists []|]. simpl.
  destruct (isspace x); [|now exists []].
  exists (x :: a). simpl. now rewrite <- IH.
Qed.

Lemma rstrip_space_prefix (s : str) : exists b, s = rstrip_space s ++ b.
Proof.
  induction s as [|x s [b IH]]; [now exists []|]. simpl.
  destruct (rstrip_space s) as [|y r] eqn:R.
  - destruct (isspace x); [now exists (x :: s) | exists s; now rewrite IH].
  - exists b. rewrite <- app_comm_cons. now rewrite <- IH.
Qed.

(** X10. Whatever the model replied, the text handed to [json.loads] holds
    no fence: no three backticks in a row are left after line 137. *)
Theorem cleaned_text_has_no_fence :
  forall (reply : str),
    has_fence (clean reply) = false
    /\ forall before after, clean reply <> before ++ fence ++ after.
Proof.
  intros reply.
  assert (H : has_fence (clean reply) = false).
  { unfold clean, strip.
    set (t := replace reply (fence ++ lit "json") []).
    assert (U : has_fence (replace t fence []) = false)
      by (apply (unfence_bounded (length t)); lia).
    destruct (lstrip_space_suffix (replace t fence [])) as [a A].
    rewrite A in U. apply has_fence_suffix in U.
    destruct (rstrip_space_prefix (lstrip_space (replace t fence []))) as [b B].
    rewrite B in U. now apply has_fence_prefix in U. }
  split; [exact H|].
  intros before after E. rewrite E, has_fence_occurrence in H. discriminate.
Qed.

(** Backticks in a row are removed three at a time, and a tag after a
    removed fence stays. *)
Example clean_backticks :
  map clean [ fence ++ fence; lit "`" ++ fence ++ lit "json`[]"; 
              fence ++ lit "js" ++ fence ++ lit "on[]" ]
  = [ []; lit "``[]"; lit "json[]" ].
Proof. reflexivity. Qed.

(** X11. The generator reads the readme through its first 5000 characters
    only: two readme texts that agree on them give the same completion
    request and the same result. *)
Theorem generator_reads_first_5000 :
  forall json_loads chat_create (readme_text readme_text' : str)
         (file_list : list str),
    firstn 5000 readme_text = firstn 5000 readme_text' ->
    completion_request readme_text file_list
    = completion_request readme_text' file_list
    /\ analyze_repo json_loads chat_create readme_text file_list
       = analyze_repo json_loads chat_create readme_text' file_list.
Proof.
  intros json_loads chat_create readme_text readme_text' file_list H.
  assert (R : completion_request readme_text file_list
              = completion_request readme_text' file_list).
  { unfold completion_request, user_prompt, truncated_readme, slice_to.
    change (Z.to_nat 5000) with 5000%nat. now rewrite H. }
  split; [exact R|].
  unfold analyze_repo, try_body. now rewrite R.
Qed.

Lemma generator_reads_first_5000_witness :
  firstn 5000 (repeat 97%N 5000 ++ lit "x")
  = firstn 5000 (repeat 97%N 5000 ++ lit "yz")
  /\ analyze_repo Ref.json_loads (Sample.replies Sample.good_reply)
       (repeat 97%N 5000 ++ lit "x") [lit "main.py"]
     = analyze_repo Ref.json_loads (Sample.replies Sample.good_reply)
         (repeat 97%N 5000 ++ lit "yz") [lit "main.py"].
Proof.
  assert (H : firstn 5000 (repeat 97%N 5000 ++ lit "x")
              = firstn 5000 (repeat 97%N 5000 ++ lit "yz"))
    by (vm_compute; reflexivity).
  split; [exact H|].
  exact (proj2 (generator_reads_first_5000 Ref.json_loads
                  (Sample.replies Sample.good_reply) _ _ [lit "main.py"] H)).
Defined.

Lemma join_length (separator : str) (l : list str) :
  length (join separator l)
  = (list_sum (map (@length char) l)
     + length separator * (length l - 1))%nat.
Proof.
  induction l as [|x l IH]; [simpl; lia|].
  destruct l as [|y l].
  - simpl. lia.
  - change (join separator (x :: y :: l))
      with (x ++ separator ++ join separator (y :: l)).
    rewrite !length_app, IH. simpl. lia.
Qed.

(** X12. The user message is 62 characters of fixed text, the joined file
    list, and at most 5000 characters of readme: the readme is the only
    part that is cut, the file list adds the length of every name and two
    characters between neighbours. *)
Theorem prompt_size :
  forall (readme_text : str) (file_list : list str),
    length (user_prompt readme_text file_list)
    = (62 + length (files_str file_list)
       + Nat.min 5000 (length readme_text))%nat
    /\ (length (user_prompt readme_text file_list)
        <= 62 + 5000 + length (files_str file_list))%nat
    /\ length (files_str file_list)
       = (list_sum (map (@length char) file_list)
          + 2 * (length file_list - 1))%nat.
Proof.
  intros readme_text file_list.
  assert (L : length (user_prompt readme_text file_list)
              = (62 + length (files_str file_list)
                 + Nat.min 5000 (length readme_text))%nat).
  { unfold user_prompt, truncated_readme, slice_to.
    change (Z.to_nat 5000) with 5000%nat.
    rewrite !length_app, length_firstn.
    change (length (lit " ")) with 1%nat.
    change (length nl) with 1%nat.
    change (length (lit "    Root Files (Filtered): ")) with 27%nat.
    change (length (lit "    README Content (Truncated): ")) with 32%nat.
    lia. }
  split; [exact L|]. split; [lia|].
  unfold files_str. rewrite join_length. reflexivity.
Qed.

(** ** The endpoint: further properties *)

Section Endpoint.

Variable str_lower : str -> str.
Variable b64decode : str -> outcome (list N).
Variable utf8_decode : list N -> outcome str.
Variable json_loads : str -> outcome json.
Variable GITHUB_TOKEN : option str.
Variable http_get : request -> outcome response.
Variable chat_create : chat_request -> outcome completion.

Local Abbreviation fetch :=
  (get_repo_data str_lower b64decode utf8_decode GITHUB_TOKEN http_get).
Local Abbreviation endpoint :=
  (summarize_repo str_lower b64decode utf8_decode json_loads GITHUB_TOKEN
     http_get chat_create).

(** The endpoint is the fetch, then the analysis of what it returned. *)
Lemma summarize_repo_run (github_url : str) :
  run (endpoint github_url)
  = match run (fetch github_url) with
    | (Return (readme_content, file_list), log) =>
        (analyze_repo json_loads chat_create readme_content file_list, log)
    | (Raise e, log) => (Raise e, log)
    end.
Proof.
  unfold run, summarize_repo, io_bind, io_lift.
  destruct (get_repo_data _ _ _ _ _ github_url []) as [[[r f]|e] log];
    reflexivity.
Qed.

(** With services that raise nothing but what derives from [Exception],
    the analysis returns a value. *)
Lemma analyze_repo_returns (readme_text : str) (file_list : list str) :
  (forall req e, chat_create req = Raise e -> is_Exception e = true) ->
  (forall s e, json_loads s = Raise e -> is_Exception e = true) ->
  exists v,
    analyze_repo json_loads chat_create readme_text file_list = Return v
    /\ (v = fallback
        \/ exists r c,
             chat_create (completion_request readme_text file_list) = Return r
             /\ first_content r = Return c
             /\ json_loads (clean c) = Return v).
Proof.
  intros Hc Hj.
  destruct (try_body_cases json_loads chat_create readme_text file_list)
    as [(e & C & B) | [(r & e & C & F & B) | (r & c & C & F & B)]].
  - exists fallback. split; [|now left].
    apply (analyze_repo_caught _ _ _ _ e B). exact (Hc _ e C).
  - exists fallback. split; [|now left].
    apply (analyze_repo_caught _ _ _ _ e B). now apply first_content_error with r.
  - destruct (json_loads (clean c)) as [v|e] eqn:J.
    + exists v. split; [now apply analyze_repo_parsed|].
      right. now exists r, c.
    + exists fallback. split; [|now left].
      apply (analyze_repo_caught _ _ _ _ e B). exact (Hj _ e J).
Qed.

End Endpoint.

(** The reference decoder raises decoding errors only. *)
Lemma ref_json_loads_raises (s : str) (e : exn) :
  Ref.json_loads s = Raise e -> is_Exception e = true.
Proof.
  unfold Ref.json_loads.
  destruct (Ref.scan_once _ _) as [[v rest]|]; [|now intros [= <-]].
  destruct (Ref.skip_space rest); [discriminate | now intros [= <-]].
Qed.

(** X13. With a model provider and a decoder that raise nothing but what
    derives from [Exception], every error of the endpoint is an error of
    the fetch, with the same requests made; and when the fetch returns,
    the endpoint returns a value, the fallback object or the decoded
    reply. *)
Theorem endpoint_errors_come_from_fetch :
  forall str_lower b64decode utf8_decode json_loads GITHUB_TOKEN http_get
         chat_create github_url,
    (forall req e, chat_create req = Raise e -> is_Exception e = true) ->
    (forall s e, json_loads s = Raise e -> is_Exception e = true) ->
    (forall e log,
        run (summarize_repo str_lower b64decode utf8_decode json_loads
               GITHUB_TOKEN http_get chat_create github_url)
        = (Raise e, log) ->
        run (get_repo_data str_lower b64decode utf8_decode GITHUB_TOKEN
               http_get github_url)
        = (Raise e, log))
    /\ (forall readme_content file_list log,
          run (get_repo_data str_lower b64decode utf8_decode GITHUB_TOKEN
                 http_get github_url)
          = (Return (readme_content, file_list), log) ->
          exists v,
            run (summarize_repo str_lower b64decode utf8_decode json_loads
                   GITHUB_TOKEN http_get chat_create github_url)
            = (Return v, log)
            /\ (v = fallback
                \/ exists r c,
                     chat_create (completion_request readme_content file_list)
                     = Return r
                     /\ first_content r = Return c
                     /\ json_loads (clean c) = Return v)).
Proof.
  intros str_lower b64decode utf8_decode json_loads GITHUB_TOKEN http_get
    chat_create github_url Hc Hj.
  split.
  - intros e log H. rewrite summarize_repo_run in H.
    destruct (run (get_repo_data _ _ _ _ _ github_url)) as [[[r f]|e'] log'].
    + destruct (analyze_repo_returns json_loads chat_create r f Hc Hj)
        as (v & A & _).
      rewrite A in H. discriminate.
    + injection H as -> ->. reflexivity.
  - intros readme_content file_list log H.
    rewrite summarize_repo_run, H.
    destruct (analyze_repo_returns json_loads chat_create readme_content
                file_list Hc Hj) as (v & A & V).
    exists v. rewrite A. now split.
Qed.

Lemma endpoint_errors_come_from_fetch_witness :
  ((forall req e, Sample.unreachable req = Raise e -> is_Exception e = true)
   /\ (forall s e, Ref.json_loads s = Raise e -> is_Exception e = true)
   /\ run (get_repo_data Ref.str_lower Ref.b64decode Ref.utf8_decode
             Sample.token Sample.provider Sample.repo_url)
      = (Return (lit "Hello", [lit "main.py"]),
         [ tree_request Sample.token (lit "acme") (lit "widgets");
           readme_request Sample.token (lit "acme") (lit "widgets") ]))
  /\ exists v,
      run (summarize_repo Ref.str_lower Ref.b64decode Ref.utf8_decode
             Ref.json_loads Sample.token Sample.provider Sample.unreachable
             Sample.repo_url)
      = (Return v,
         [ tree_request Sample.token (lit "acme") (lit "widgets");
           readme_request Sample.token (lit "acme") (lit "widgets") ])
      /\ (v = fallback
          \/ exists r c,
               Sample.unreachable
                 (completion_request (lit "Hello") [lit "main.py"])
               = Return r
               /\ first_content r = Return c
               /\ Ref.json_loads (clean c) = Return v).
Proof.
  assert (Hc : forall req e,
             Sample.unreachable req = Raise e -> is_Exception e = true)
    by (intros req e [= <-]; reflexivity).
  split; [split; [exact Hc | split; [exact ref_json_loads_raises | reflexivity]]|].
  exact (proj2 (endpoint_errors_come_from_fetch Ref.str_lower Ref.b64decode
                  Ref.utf8_decode Ref.json_loads Sample.token Sample.provider
                  Sample.unreachable Sample.repo_url Hc ref_json_loads_raises)
           (lit "Hello") [lit "main.py"]
           [ tree_request Sample.token (lit "acme") (lit "widgets");
             readme_request Sample.token (lit "acme") (lit "widgets") ]
           eq_refl).
Defined.

(** X14. A URL of fewer than two segments is answered with the status 400
    and the error envelope, [status] being [error] and [message] being
    [Invalid GitHub URL], without any request to the provider and
    whatever the model provider would do. *)
Theorem rejected_url_reply :
  forall exn_str str_lower b64decode utf8_decode json_loads GITHUB_TOKEN
         http_get chat_create github_url,
    Z.of_nat (length (split (rstrip github_url sep) sep)) < 2 ->
    exists e,
      run (summarize_repo str_lower b64decode utf8_decode json_loads
             GITHUB_TOKEN http_get chat_create github_url)
      = (Raise e, [])
      /\ exception_response exn_str e
         = Some {| response_status_code := 400;
                   response_content :=
                     JObj [ (lit "status", JStr (lit "error"));
                            (lit "message", JStr (lit "Invalid GitHub URL")) ] |}.
Proof.
  intros exn_str str_lower b64decode utf8_decode json_loads GITHUB_TOKEN
    http_get chat_create github_url H.
  exists (HTTPException 400 (lit "Invalid GitHub URL")).
  split; [|reflexivity].
  rewrite summarize_repo_run.
  now rewrite (fetch_rejected str_lower b64decode utf8_decode GITHUB_TOKEN
                 http_get github_url _ (parse_repo_url_short github_url H)).
Qed.

Lemma rejected_url_reply_witness :
  Z.of_nat (length (split (rstrip [] sep) sep)) < 2
  /\ exists e,
      run (summarize_repo Ref.str_lower Ref.b64decode Ref.utf8_decode
             Ref.json_loads None Probe.provider_down Sample.unreachable [])
      = (Raise e, [])
      /\ exception_response Probe.exn_str e
         = Some {| response_status_code := 400;
                   response_content :=
                     JObj [ (lit "status", JStr (lit "error"));
                            (lit "message", JStr (lit "Invalid GitHub URL")) ] |}.
Proof.
  split; [reflexivity|].
  apply (rejected_url_reply Probe.exn_str Ref.str_lower Ref.b64decode
           Ref.utf8_decode Ref.json_loads None Probe.provider_down
           Sample.unreachable []).
  reflexivity.
Defined.

(** X15. When the readme request is answered with a status other than 200
    and 404, the reply of the endpoint carries that very status, whatever
    it is (a redirect 301 as well as a 403 or a 500), with the error
    envelope and the message [GitHub API Error]; the model provider has no
    part in it. *)
Theorem provider_status_passed_on :
  forall exn_str str_lower b64decode utf8_decode json_loads GITHUB_TOKEN
         http_get chat_create github_url owner repo_name tree_resp file_list
         readme_resp,
    parse_repo_url github_url = Return (owner, repo_name) ->
    http_get (tree_request GITHUB_TOKEN owner repo_name) = Return tree_resp ->
    file_list_of_response str_lower tree_resp = Return file_list ->
    http_get (readme_request GITHUB_TOKEN owner repo_name) = Return readme_resp ->
    status_code readme_resp <> 200 -> status_code readme_resp <> 404 ->
    exists e,
      fst (run (summarize_repo str_lower b64decode utf8_decode json_loads
                  GITHUB_TOKEN http_get chat_create github_url))
      = Raise e
      /\ exception_response exn_str e
         = Some {| response_status_code := status_code readme_resp;
                   response_content :=
                     JObj [ (lit "status", JStr (lit "error"));
                            (lit "message", JStr (lit "GitHub API Error")) ] |}.
Proof.
  intros exn_str str_lower b64decode utf8_decode json_loads GITHUB_TOKEN
    http_get chat_create github_url owner repo_name tree_resp file_list
    readme_resp P T F R S2 S4.
  exists (HTTPException (status_code readme_resp) (lit "GitHub API Error")).
  split; [|reflexivity].
  rewrite summarize_repo_run.
  rewrite (fetch_accepted str_lower b64decode utf8_decode GITHUB_TOKEN http_get
             github_url owner repo_name P), T, F, R.
  unfold readme_content_of_response.
  destruct (Z.eqb_spec (status_code readme_resp) 200); [contradiction|].
  destruct (Z.eqb_spec (status_code readme_resp) 404); [contradiction|].
  reflexivity.
Qed.

Lemma provider_status_passed_on_witness :
  (parse_repo_url Sample.repo_url = Return (lit "acme", lit "widgets")
   /\ file_list_of_response Ref.str_lower
        {| status_code := 200; json_body := Return (JArr Sample.listing) |}
      = Return [lit "main.py"]
   /\ 301 <> 200 /\ 301 <> 404)
  /\ exists e,
      fst (run (summarize_repo Ref.str_lower Ref.b64decode Ref.utf8_decode
                  Ref.json_loads Sample.token Probe.provider_moved
                  (Sample.replies Sample.good_reply) Sample.repo_url))
      = Raise e
      /\ exception_response Probe.exn_str e
         = Some {| response_status_code := 301;
                   response_content :=
                     JObj [ (lit "status", JStr (lit "error"));
                            (lit "message", JStr (lit "GitHub API Error")) ] |}.
Proof.
  assert (S2 : 301 <> 200) by discriminate.
  assert (S4 : 301 <> 404) by discriminate.
  split; [split; [reflexivity | split; [reflexivity | split; assumption]]|].
  exact (provider_status_passed_on Probe.exn_str Ref.str_lower Ref.b64decode
           Ref.utf8_decode Ref.json_loads Sample.token Probe.provider_moved
           (Sample.replies Sample.good_reply) Sample.repo_url
           (lit "acme") (lit "widgets")
           {| status_code := 200; json_body := Return (JArr Sample.listing) |}
           [lit "main.py"]
           {| status_code := 301; json_body := Return JNull |}
           eq_refl eq_refl eq_refl eq_refl S2 S4).
Defined.

(** X16. A listing request that raises an exception other than an
    [HTTPException] (the provider cannot be reached, the client refuses
    the headers) is answered with the status 500 and the envelope whose
    message is [Internal Server Error: ] followed by the text of the
    exception; the readme request is not made. *)
Theorem transport_failure_reply :
  forall exn_str str_lower b64decode utf8_decode json_loads GITHUB_TOKEN
         http_get chat_create github_url owner repo_name e,
    parse_repo_url github_url = Return (owner, repo_name) ->
    http_get (tree_request GITHUB_TOKEN owner repo_name) = Raise e ->
    is_Exception e = true ->
    (forall status detail, e <> HTTPException status detail) ->
    run (summarize_repo str_lower b64decode utf8_decode json_loads
           GITHUB_TOKEN http_get chat_create github_url)
    = (Raise e, [tree_request GITHUB_TOKEN owner repo_name])
    /\ exception_response exn_str e
       = Some {| response_status_code := 500;
                 response_content :=
                   JObj [ (lit "status", JStr (lit "error"));
                          (lit "message",
                           JStr (lit "Internal Server Error: " ++ exn_str e)) ] |}.
Proof.
  intros exn_str str_lower b64decode utf8_decode json_loads GITHUB_TOKEN
    http_get chat_create github_url owner repo_name e P T E NH.
  split.
  - rewrite summarize_repo_run.
    now rewrite (fetch_accepted str_lower b64decode utf8_decode GITHUB_TOKEN
                   http_get github_url owner repo_name P), T.
  - destruct e as [status detail| | | | |name|name]; try reflexivity;
      [|discriminate].
    exfalso. now apply (NH status detail).
Qed.

Lemma transport_failure_reply_witness :
  (parse_repo_url Sample.repo_url = Return (lit "acme", lit "widgets")
   /\ Probe.provider_down
        (tree_request Sample.token (lit "acme") (lit "widgets"))
      = Raise (LibraryError (lit "httpx.ConnectError")))
  /\ run (summarize_repo Ref.str_lower Ref.b64decode Ref.utf8_decode
            Ref.json_loads Sample.token Probe.provider_down
            (Sample.replies Sample.good_reply) Sample.repo_url)
     = (Raise (LibraryError (lit "httpx.ConnectError")),
        [tree_request Sample.token (lit "acme") (lit "widgets")])
  /\ exception_response Probe.exn_str (LibraryError (lit "httpx.ConnectError"))
     = Some {| response_status_code := 500;
               response_content :=
                 JObj [ (lit "status", JStr (lit "error"));
                        (lit "message",
                         JStr (lit "Internal Server Error: httpx.ConnectError")) ] |}.
Proof.
  split; [split; reflexivity|].
  apply (transport_failure_reply Probe.exn_str Ref.str_lower Ref.b64decode
           Ref.utf8_decode Ref.json_loads Sample.token Probe.provider_down
           (Sample.replies Sample.good_reply) Sample.repo_url
           (lit "acme") (lit "widgets")
           (LibraryError (lit "httpx.ConnectError")) eq_refl eq_refl eq_refl).
  intros status detail. discriminate.
Defined.
